(** * LED status widget (src/widget.c): a shallow embedding and its properties

    The widget drives one LED from three event sources (USB power, connectivity,
    battery).  Producers put [message_item]s on a bounded kernel queue; a single
    consumer thread, [led_process_thread], applies them to a bitmask of active
    patterns and blinks the pattern of the highest set bit.

    C integers are modelled as [Z] with truncation written out ([u8], [u16]);
    C enums are modelled as [Z] with their enumerators as named constants, since
    a C enum object can hold any integer.  The file-scope variables of widget.c
    are the fields of the record [widget]; every C function is a state
    transformer on it.  Calls into the LED driver, [k_sleep] and the two
    [LOG_WRN] sites are recorded, in order, in the field [io_log].
    [LOG_INF] and [LOG_DBG] lines are not modelled. *)

From Stdlib Require Import ZArith List Bool Lia Permutation.
Import ListNotations.
Local Open Scope Z_scope.

(** ** Fixed-width integers *)

Definition u8 (x : Z) : Z := x mod 256.
Definition u16 (x : Z) : Z := x mod 65536.

(** ** Enumerations *)

Module message_type.
Definition MESSAGE_COLOR_SET : Z := 0.
Definition MESSAGE_PATTERN_SWAP : Z := 1.
End message_type.
Export message_type.

Module color.
Definition COLOR_OFF : Z := 0.
Definition COLOR_ON : Z := 1.
End color.
Export color.

Module pattern_type.
Definition PATTERN_UNKNOWN : Z := -1.
Definition PATTERN_BATT_30 : Z := 0.
Definition PATTERN_BATT_20 : Z := 1.
Definition PATTERN_BATT_10 : Z := 2.
Definition PATTERN_ADVERTISING : Z := 3.
Definition PATTERN_CONNECTED : Z := 4.

(** Membership in the enumeration, as a decidable test. *)
Definition is_pattern_type (x : Z) : bool :=
  (PATTERN_UNKNOWN <=? x) && (x <=? PATTERN_CONNECTED).
End pattern_type.
Export pattern_type.

(** ** Build configuration

    The Kconfig symbols are not part of widget.c; they are parameters of the
    whole development. *)

Record kconfig : Type := mk_kconfig {
  CONFIG_LED_WIDGET_BATTERY_BLINK_MS : Z;
  CONFIG_LED_WIDGET_BATTERY_BLINK_SLEEP_MS : Z;
  CONFIG_LED_WIDGET_CONN_ADVERTISING_MS : Z;
  CONFIG_LED_WIDGET_CONN_CONNECTED_MS : Z;
  CONFIG_LED_WIDGET_INTERVAL_MS : Z;
  CONFIG_ZMK_SPLIT : bool;
  CONFIG_ZMK_SPLIT_ROLE_CENTRAL : bool;
  CONFIG_ZMK_BLE : bool;
  CONFIG_ZMK_SPLIT_BLE : bool;
  CONFIG_ZMK_BATTERY_REPORTING : bool
}.

(** ** What the platform answers when queried

    [zmk_battery_state_of_charge k] is the answer to the k-th poll made by
    [indicate_battery]. *)

Record platform : Type := mk_platform {
  zmk_usb_is_powered : bool;
  zmk_ble_active_profile_is_connected : bool;
  zmk_ble_active_profile_is_open : bool;
  zmk_split_bt_peripheral_is_connected : bool;
  zmk_battery_state_of_charge : nat -> Z
}.

(** ** Patterns and messages *)

Record pattern : Type := mk_pattern {
  times : Z;        (* uint8_t *)
  duration_ms : Z;  (* uint16_t *)
  sleep_ms : Z      (* uint16_t *)
}.

(** [struct message_item]: a tag and an anonymous union.  The union's member
    [color] shares its storage with [pattern_off], the first field of the
    anonymous struct; [pattern_on] follows.  The two storage slots are
    [slot0] and [slot1]. *)

Record message_item : Type := mk_message_item {
  type : Z;
  slot0 : Z;
  slot1 : Z
}.

Definition msg_color (m : message_item) : Z := slot0 m.
Definition pattern_off (m : message_item) : Z := slot0 m.
Definition pattern_on (m : message_item) : Z := slot1 m.

(** [{.type = MESSAGE_COLOR_SET}] with [msg.color = c] assigned afterwards. *)
Definition color_set (c : Z) : message_item :=
  mk_message_item MESSAGE_COLOR_SET c 0.

(** [{.type = MESSAGE_PATTERN_SWAP}] with both pattern fields assigned. *)
Definition pattern_swap (off on : Z) : message_item :=
  mk_message_item MESSAGE_PATTERN_SWAP off on.

(** ** Observable actions *)

Inductive event : Type :=
| led_on
| led_off
| k_sleep (ms : Z)
| warn_invalid_pattern_index (pattern_index : Z)
| warn_unknown_message_type (t : Z).

(** ** File-scope state of widget.c *)

Record widget : Type := mk_widget {
  initialized : bool;
  led_current_color : Z;
  led_msgq : list message_item;
  usb_current_powered : bool;
  current_connectivity_pattern : Z;
  indicate_connectivity_work : bool;   (* a delayed run is scheduled *)
  current_battery_pattern : Z;
  led_default_color : Z;
  led_current_patterns : Z;            (* uint8_t *)
  io_log : list event
}.

(** State at program start, from the initialisers in widget.c. *)
Definition boot : widget :=
  mk_widget false COLOR_OFF [] false PATTERN_UNKNOWN false PATTERN_UNKNOWN
            COLOR_OFF 0 [].

Definition set_initialized (b : bool) (w : widget) : widget :=
  mk_widget b (led_current_color w) (led_msgq w) (usb_current_powered w)
    (current_connectivity_pattern w) (indicate_connectivity_work w)
    (current_battery_pattern w) (led_default_color w) (led_current_patterns w)
    (io_log w).

Definition set_led_current_color (c : Z) (w : widget) : widget :=
  mk_widget (initialized w) c (led_msgq w) (usb_current_powered w)
    (current_connectivity_pattern w) (indicate_connectivity_work w)
    (current_battery_pattern w) (led_default_color w) (led_current_patterns w)
    (io_log w).

Definition set_led_msgq (q : list message_item) (w : widget) : widget :=
  mk_widget (initialized w) (led_current_color w) q (usb_current_powered w)
    (current_connectivity_pattern w) (indicate_connectivity_work w)
    (current_battery_pattern w) (led_default_color w) (led_current_patterns w)
    (io_log w).

Definition set_usb_current_powered (b : bool) (w : widget) : widget :=
  mk_widget (initialized w) (led_current_color w) (led_msgq w) b
    (current_connectivity_pattern w) (indicate_connectivity_work w)
    (current_battery_pattern w) (led_default_color w) (led_current_patterns w)
    (io_log w).

Definition set_current_connectivity_pattern (p : Z) (w : widget) : widget :=
  mk_widget (initialized w) (led_current_color w) (led_msgq w)
    (usb_current_powered w) p (indicate_connectivity_work w)
    (current_battery_pattern w) (led_default_color w) (led_current_patterns w)
    (io_log w).

Definition set_indicate_connectivity_work (b : bool) (w : widget) : widget :=
  mk_widget (initialized w) (led_current_color w) (led_msgq w)
    (usb_current_powered w) (current_connectivity_pattern w) b
    (current_battery_pattern w) (led_default_color w) (led_current_patterns w)
    (io_log w).

Definition set_current_battery_pattern (p : Z) (w : widget) : widget :=
  mk_widget (initialized w) (led_current_color w) (led_msgq w)
    (usb_current_powered w) (current_connectivity_pattern w)
    (indicate_connectivity_work w) p (led_default_color w)
    (led_current_patterns w) (io_log w).

Definition set_led_default_color (c : Z) (w : widget) : widget :=
  mk_widget (initialized w) (led_current_color w) (led_msgq w)
    (usb_current_powered w) (current_connectivity_pattern w)
    (indicate_connectivity_work w) (current_battery_pattern w) c
    (led_current_patterns w) (io_log w).

Definition set_led_current_patterns (p : Z) (w : widget) : widget :=
  mk_widget (initialized w) (led_current_color w) (led_msgq w)
    (usb_current_powered w) (current_connectivity_pattern w)
    (indicate_connectivity_work w) (current_battery_pattern w)
    (led_default_color w) p (io_log w).

(** Append one action to the log. *)
Definition emit (e : event) (w : widget) : widget :=
  mk_widget (initialized w) (led_current_color w) (led_msgq w)
    (usb_current_powered w) (current_connectivity_pattern w)
    (indicate_connectivity_work w) (current_battery_pattern w)
    (led_default_color w) (led_current_patterns w) (io_log w ++ [e]).

(** ** The kernel message queue *)

(** Modelled from the spec: the queue behind [K_MSGQ_DEFINE], [k_msgq_put] and
    [k_msgq_get] belongs to the kernel, not to widget.c.  Section 4.2 gives its
    contract: a bounded FIFO of capacity 16; a non-blocking put on a full queue
    drops the message; a get hands out the oldest entry. *)
Definition led_msgq_capacity : nat := 16.

(** [k_msgq_put(&led_msgq, &msg, K_NO_WAIT)]. *)
Definition k_msgq_put (m : message_item) (w : widget) : widget :=
  if (length (led_msgq w) <? led_msgq_capacity)%nat
  then set_led_msgq (led_msgq w ++ [m]) w
  else w.

(** [k_msgq_get(&led_msgq, &msg, timeout)]: the oldest entry and the rest, or
    nothing when the queue is empty. *)
Definition k_msgq_get (w : widget) : option (message_item * widget) :=
  match led_msgq w with
  | [] => None
  | m :: q => Some (m, set_led_msgq q w)
  end.

(** ** The consumer: LED driver access, pattern display, message loop *)

Section Widget.

Variable cfg : kconfig.

(** [static const struct pattern PATTERNS[]]; the initialisers are converted to
    the width of the fields they fill. *)
Definition PATTERNS : list pattern :=
  [ (* PATTERN_BATT_30 *)
    mk_pattern 3 (u16 (CONFIG_LED_WIDGET_BATTERY_BLINK_MS cfg))
                 (u16 (CONFIG_LED_WIDGET_BATTERY_BLINK_SLEEP_MS cfg));
    (* PATTERN_BATT_20 *)
    mk_pattern 2 (u16 (CONFIG_LED_WIDGET_BATTERY_BLINK_MS cfg))
                 (u16 (CONFIG_LED_WIDGET_BATTERY_BLINK_SLEEP_MS cfg));
    (* PATTERN_BATT_10 *)
    mk_pattern 1 (u16 (CONFIG_LED_WIDGET_BATTERY_BLINK_MS cfg))
                 (u16 (CONFIG_LED_WIDGET_BATTERY_BLINK_SLEEP_MS cfg));
    (* PATTERN_ADVERTISING *)
    mk_pattern 1 (u16 (CONFIG_LED_WIDGET_CONN_ADVERTISING_MS cfg)) 0;
    (* PATTERN_CONNECTED *)
    mk_pattern 1 (u16 (CONFIG_LED_WIDGET_CONN_CONNECTED_MS cfg)) 0 ].

(** [sizeof(PATTERNS) / sizeof(PATTERNS[0])] *)
Definition PATTERNS_len : Z := Z.of_nat (length PATTERNS).

(** [set_led]: touch the driver only when the level changes, then sleep when
    the duration is positive. *)
Definition set_led (color duration_ms : Z) (w : widget) : widget :=
  let w1 :=
    if negb (led_current_color w =? color)
    then set_led_current_color color
           (emit (if negb (color =? 0) then led_on else led_off) w)
    else w in
  if 0 <? duration_ms then emit (k_sleep duration_ms) w1 else w1.

(** The [for] loop of [display_pattern].  [i] is the [uint8_t] counter; the
    loop leaves through its own test [i < p->times].  [fuel] bounds the number
    of tests; [None] means the bound was reached first. *)
Fixpoint display_pattern_loop (fuel : nat) (p : pattern) (i : Z) (w : widget)
  : option widget :=
  match fuel with
  | O => None
  | S fuel' =>
    if i <? times p then
      let w1 :=
        set_led (if led_default_color w =? COLOR_ON then COLOR_OFF else COLOR_ON)
                (duration_ms p) w in
      let w2 :=
        if i <? times p - 1
        then set_led (led_default_color w1) (sleep_ms p) w1
        else w1 in
      display_pattern_loop fuel' p (u8 (i + 1)) w2
    else Some w
  end.

(** [display_pattern(uint8_t pattern_index)].  A [uint8_t] counter is tested at
    most 257 times before it wraps. *)
Definition display_pattern (pattern_index : Z) (w : widget) : option widget :=
  if PATTERNS_len <=? pattern_index then
    Some (emit (warn_invalid_pattern_index pattern_index) w)
  else
    match nth_error PATTERNS (Z.to_nat pattern_index) with
    | None => None
    | Some p =>
      match display_pattern_loop 257 p 0 w with
      | None => None
      | Some w1 =>
        Some (set_led (led_default_color w1)
                      (u16 (CONFIG_LED_WIDGET_INTERVAL_MS cfg)) w1)
      end
    end.

(** The [switch (msg.type)] of [led_process_thread]. *)
Definition process_message (msg : message_item) (w : widget) : widget :=
  if type msg =? MESSAGE_COLOR_SET then
    set_led_default_color (msg_color msg) w
  else if type msg =? MESSAGE_PATTERN_SWAP then
    let w1 :=
      if negb (pattern_off msg =? PATTERN_UNKNOWN)
      then set_led_current_patterns
             (u8 (Z.land (led_current_patterns w)
                         (Z.lnot (Z.shiftl 1 (pattern_off msg))))) w
      else w in
    if negb (pattern_on msg =? PATTERN_UNKNOWN)
    then set_led_current_patterns
           (u8 (Z.lor (led_current_patterns w1)
                      (Z.shiftl 1 (pattern_on msg)))) w1
    else w1
  else
    emit (warn_unknown_message_type (type msg)) w.

(** The bit scan of [led_process_thread]:
    [for (highest_priority_pattern = 0; v; highest_priority_pattern++) v >>= 1;]
    with [v] and the counter of type [uint8_t]. *)
Fixpoint highest_bit_loop (fuel : nat) (v h : Z) : option Z :=
  match fuel with
  | O => None
  | S fuel' =>
    if negb (v =? 0)
    then highest_bit_loop fuel' (u8 (Z.shiftr v 1)) (u8 (h + 1))
    else Some h
  end.

(** [uint8_t v = led_current_patterns >> 1;] followed by the scan.  Nine tests
    suffice for an eight-bit [v]. *)
Definition highest_priority_pattern (patterns : Z) : option Z :=
  highest_bit_loop 9 (u8 (Z.shiftr patterns 1)) 0.

(** How one pass through the body of [while (true)] ends. *)
Inductive outcome : Type :=
| waiting                   (* [k_msgq_get] with [K_FOREVER] on an empty queue *)
| completed (w : widget)    (* the pass reached the end of the loop body *)
| out_of_fuel.              (* a loop bound of the model was reached *)

(** The first statement of the loop body in [led_process_thread]:
    [k_msgq_get(&led_msgq, &msg, led_current_patterns == 0 ? K_FOREVER : K_NO_WAIT)].

    [struct message_item msg;] is declared without an initialiser and the
    result of [k_msgq_get] is not examined.  When the queue is empty and the
    call does not wait, [msg] is not written and the [switch] that follows
    reads whatever the variable holds; that content is the argument [uninit].
    The result is the message the [switch] will read and the state after the
    call; [None] stands for a call that waits for a producer. *)
Definition led_process_receive (uninit : message_item) (w : widget)
  : option (message_item * widget) :=
  match k_msgq_get w with
  | Some (m, w') => Some (m, w')
  | None => if led_current_patterns w =? 0 then None else Some (uninit, w)
  end.

(** The rest of the loop body after the [switch]: idle output, or the bit scan
    and [display_pattern]. *)
Definition led_process_display (w : widget) : outcome :=
  if led_current_patterns w =? 0 then
    completed (set_led (led_default_color w) 0 w)
  else
    match highest_priority_pattern (led_current_patterns w) with
    | None => out_of_fuel
    | Some idx =>
      match display_pattern idx w with
      | None => out_of_fuel
      | Some w' => completed w'
      end
    end.

(** One pass through the body of [while (true)] in [led_process_thread]. *)
Definition led_process_iteration (uninit : message_item) (w : widget) : outcome :=
  match led_process_receive uninit w with
  | None => waiting
  | Some (msg, w0) => led_process_display (process_message msg w0)
  end.

(** The prologue of [led_process_thread], before the loop. *)
Definition led_process_thread_start (w : widget) : widget :=
  set_led (led_default_color w) 0 (set_indicate_connectivity_work false w).

(** ** The producers: power, connectivity and battery adapters *)

Section Adapters.

Variable env : platform.

(** [indicate_usb_powered] *)
Definition indicate_usb_powered (w : widget) : widget :=
  let powered := zmk_usb_is_powered env in
  if negb (Bool.eqb (usb_current_powered w) powered) then
    let w1 := k_msgq_put (color_set (if powered then COLOR_ON else COLOR_OFF)) w in
    set_usb_current_powered powered w1
  else w.

(** [led_charge_listener_cb] *)
Definition led_charge_listener_cb (w : widget) : widget :=
  if initialized w then indicate_usb_powered w else w.

(** The preprocessor-selected head of [indicate_connectivity_internal], which
    assigns [next_connectivity_pattern].  Both labels of the [switch] on the
    selected transport lead to the same statements, so the transport does not
    appear.  In a build where no branch assigns the variable it keeps its
    uninitialised content [uninit]. *)
Definition next_connectivity_pattern (uninit : Z) : Z :=
  if negb (CONFIG_ZMK_SPLIT cfg) || CONFIG_ZMK_SPLIT_ROLE_CENTRAL cfg then
    if CONFIG_ZMK_BLE cfg then
      if zmk_ble_active_profile_is_connected env then PATTERN_CONNECTED
      else if zmk_ble_active_profile_is_open env then PATTERN_ADVERTISING
      else PATTERN_UNKNOWN
    else uninit
  else if CONFIG_ZMK_SPLIT_BLE cfg then
    if zmk_split_bt_peripheral_is_connected env then PATTERN_CONNECTED
    else PATTERN_UNKNOWN
  else uninit.

(** [indicate_connectivity_internal] *)
Definition indicate_connectivity_internal (uninit : Z) (w : widget) : widget :=
  let next := next_connectivity_pattern uninit in
  if negb (current_connectivity_pattern w =? next) then
    let w1 := k_msgq_put (pattern_swap (current_connectivity_pattern w) next) w in
    if next =? PATTERN_CONNECTED then
      (* only blink the connected pattern once *)
      let w2 := k_msgq_put (pattern_swap next PATTERN_UNKNOWN) w1 in
      set_current_connectivity_pattern PATTERN_UNKNOWN w2
    else
      set_current_connectivity_pattern next w1
  else w.

(** [indicate_connectivity_cb]: the delayed work item runs. *)
Definition indicate_connectivity_cb (uninit : Z) (w : widget) : widget :=
  indicate_connectivity_internal uninit (set_indicate_connectivity_work false w).

(** [indicate_connectivity]: [k_work_reschedule] leaves exactly one run
    scheduled, whether or not one was scheduled before. *)
Definition indicate_connectivity (w : widget) : widget :=
  set_indicate_connectivity_work true w.

(** [led_output_listener_cb] *)
Definition led_output_listener_cb (w : widget) : widget :=
  if initialized w then indicate_connectivity w else w.

(** [set_battery_level(uint8_t battery_level)] *)
Definition set_battery_level (battery_level : Z) (w : widget) : widget :=
  if battery_level =? 0 then w
  else
    let next_battery_pattern :=
      if battery_level <=? 10 then PATTERN_BATT_10
      else if battery_level <=? 20 then PATTERN_BATT_20
      else if battery_level <=? 30 then PATTERN_BATT_30
      else PATTERN_UNKNOWN in
    if negb (current_battery_pattern w =? next_battery_pattern) then
      let w1 := k_msgq_put (pattern_swap (current_battery_pattern w)
                                         next_battery_pattern) w in
      set_current_battery_pattern next_battery_pattern w1
    else w.

(** The retry loop of [indicate_battery]:
    [while (battery_level == 0 && retry++ < 10)].  [polls] counts the readings
    taken so far; the 100 ms pauses of the initialisation thread are not
    recorded in [io_log], which belongs to the consumer. *)
Fixpoint indicate_battery_loop (fuel : nat) (retry : Z) (polls : nat)
  (battery_level : Z) : option Z :=
  match fuel with
  | O => None
  | S fuel' =>
    if (battery_level =? 0) && (retry <? 10)
    then indicate_battery_loop fuel' (retry + 1) (S polls)
           (u8 (zmk_battery_state_of_charge env (S polls)))
    else Some battery_level
  end.

(** [indicate_battery] *)
Definition indicate_battery (w : widget) : option widget :=
  match indicate_battery_loop 11 0 0 (u8 (zmk_battery_state_of_charge env 0)) with
  | None => None
  | Some battery_level => Some (set_battery_level battery_level w)
  end.

(** [led_battery_listener_cb]; [state_of_charge] is the [uint8_t] carried by
    the event. *)
Definition led_battery_listener_cb (state_of_charge : Z) (w : widget) : widget :=
  if initialized w then set_battery_level state_of_charge w else w.

(** [led_init_thread] *)
Definition led_init_thread (w : widget) : option widget :=
  let w1 := indicate_usb_powered w in
  let w2 := indicate_connectivity w1 in
  let w3 :=
    if CONFIG_ZMK_BATTERY_REPORTING cfg then indicate_battery w2 else Some w2 in
  match w3 with
  | None => None
  | Some w4 => Some (set_initialized true w4)
  end.

End Adapters.

End Widget.

(** ** Vocabulary of the properties *)

(** A sequence of [set_led] calls, each a requested level and a hold time. *)
Definition drive (requests : list (Z * Z)) (w : widget) : widget :=
  fold_left (fun w r => set_led (fst r) (snd r) w) requests w.

(** Several consecutive passes through the loop body of [led_process_thread],
    one per element of [uninits]; it stops early at a pass that waits. *)
Fixpoint led_process_passes (cfg : kconfig) (uninits : list message_item)
  (w : widget) : outcome :=
  match uninits with
  | [] => completed w
  | u :: us =>
    match led_process_iteration cfg u w with
    | completed w' => led_process_passes cfg us w'
    | o => o
    end
  end.

(** Applying a sequence of messages in order. *)
Definition process_messages (msgs : list message_item) (w : widget) : widget :=
  fold_left (fun w m => process_message m w) msgs w.

(** Feeding a sequence of battery levels to the battery adapter in order. *)
Definition set_battery_levels (levels : list Z) (w : widget) : widget :=
  fold_left (fun w b => set_battery_level b w) levels w.

(** [sep] placed between each two neighbours of a list. *)
Fixpoint intersperse {A : Type} (sep : A) (l : list A) : list A :=
  match l with
  | [] => []
  | x :: l' =>
    match l' with
    | [] => [x]
    | _ :: _ => x :: sep :: intersperse sep l'
    end
  end.

Definition inverse (base : Z) : Z :=
  if base =? COLOR_ON then COLOR_OFF else COLOR_ON.

(** The rendering of a pattern in the words of the specification:
    [times] blinks at the inverse of the base colour, a gap at the base colour
    between each two of them, and a final rest at the base colour. *)
Definition render_requests (base : Z) (p : pattern) (rest_ms : Z) : list (Z * Z) :=
  intersperse (base, sleep_ms p)
              (repeat (inverse base, duration_ms p) (Z.to_nat (times p)))
  ++ [(base, rest_ms)].

(** [i] is the position of the highest set bit of [x]. *)
Definition highest_set_bit (x i : Z) : Prop :=
  Z.testbit x i = true /\ forall j, i < j -> Z.testbit x j = false.

(** Number of binary digits of a non-negative number. *)
Definition bit_length (v : Z) : Z := if v =? 0 then 0 else Z.log2 v + 1.

(** A pattern-swap message whose two fields are enumerators of
    [pattern_type]; messages of other types are not constrained. *)
Definition swap_in_enum (m : message_item) : bool :=
  negb (type m =? MESSAGE_PATTERN_SWAP)
  || (is_pattern_type (pattern_off m) && is_pattern_type (pattern_on m)).

(** A message that only asserts a condition: a pattern swap with nothing to
    clear and an enumerator to set. *)
Definition asserts_only (m : message_item) : bool :=
  (type m =? MESSAGE_PATTERN_SWAP)
  && (pattern_off m =? PATTERN_UNKNOWN)
  && is_pattern_type (pattern_on m).

(** The battery tiers in the words of the specification: at most 10 is tier 1,
    above 10 and at most 20 is tier 2, above 20 and at most 30 is tier 3, and
    above 30 is no tier. *)
Definition battery_tier (b : Z) : Z :=
  if b <=? 10 then PATTERN_BATT_10
  else if (10 <? b) && (b <=? 20) then PATTERN_BATT_20
  else if (20 <? b) && (b <=? 30) then PATTERN_BATT_30
  else PATTERN_UNKNOWN.

(** A message with one of the two defined types. *)
Definition known_type (m : message_item) : bool :=
  (type m =? MESSAGE_COLOR_SET) || (type m =? MESSAGE_PATTERN_SWAP).

(** ** Vocabulary of the system-level properties *)

(** The level the LED driver is asked for by a colour: [set_led] calls
    [led_on] for every non-zero colour. *)
Definition lit (c : Z) : bool := negb (c =? 0).

(** One of the two enumerators of [enum color]. *)
Definition is_color (c : Z) : bool := (c =? COLOR_OFF) || (c =? COLOR_ON).

(** The LED driver calls recorded in a log, in order; [true] is [led_on]. *)
Fixpoint driver_calls (log : list event) : list bool :=
  match log with
  | [] => []
  | led_on :: l => true :: driver_calls l
  | led_off :: l => false :: driver_calls l
  | _ :: l => driver_calls l
  end.

(** Each element differs from the one before it, the first from [prev]. *)
Fixpoint alternates (prev : bool) (l : list bool) : bool :=
  match l with
  | [] => true
  | b :: l' => negb (Bool.eqb b prev) && alternates b l'
  end.

(** The time spent in [k_sleep] according to a log, in milliseconds. *)
Fixpoint slept (log : list event) : Z :=
  match log with
  | [] => 0
  | k_sleep ms :: l => ms + slept l
  | _ :: l => slept l
  end.

(** The time a sequence of [set_led] requests holds the LED: a request with a
    duration that is not positive does not sleep. *)
Definition hold_time (requests : list (Z * Z)) : Z :=
  fold_right (fun r acc => Z.max 0 (snd r) + acc) 0 requests.

(** The entry points through which the rest of the firmware reaches the
    producers: the three listener callbacks, the delayed work item and the
    initialisation thread. *)
Inductive producer_call : Type :=
| usb_conn_state_changed
| connectivity_changed
| connectivity_work_runs (uninit : Z)
| battery_state_changed (state_of_charge : Z)
| init_thread_runs.

Definition producer_step (cfg : kconfig) (env : platform) (c : producer_call)
  (w : widget) : option widget :=
  match c with
  | usb_conn_state_changed => Some (led_charge_listener_cb env w)
  | connectivity_changed => Some (led_output_listener_cb w)
  | connectivity_work_runs uninit => Some (indicate_connectivity_cb cfg env uninit w)
  | battery_state_changed soc => Some (led_battery_listener_cb soc w)
  | init_thread_runs => led_init_thread cfg env w
  end.

(** A build in which one preprocessor branch of
    [indicate_connectivity_internal] assigns [next_connectivity_pattern]. *)
Definition connectivity_configured (cfg : kconfig) : bool :=
  if negb (CONFIG_ZMK_SPLIT cfg) || CONFIG_ZMK_SPLIT_ROLE_CENTRAL cfg
  then CONFIG_ZMK_BLE cfg
  else CONFIG_ZMK_SPLIT_BLE cfg.

(** A message as the adapters build them: a colour-set carrying a colour of
    the enumeration, or a pattern swap carrying two pattern enumerators. *)
Definition adapter_message (m : message_item) : bool :=
  ((type m =? MESSAGE_COLOR_SET) && is_color (msg_color m))
  || ((type m =? MESSAGE_PATTERN_SWAP)
      && is_pattern_type (pattern_off m) && is_pattern_type (pattern_on m)).

(** The values the battery adapter can remember: none or one of the three
    battery patterns. *)
Definition is_battery_tier (x : Z) : bool :=
  (PATTERN_UNKNOWN <=? x) && (x <=? PATTERN_BATT_10).

(** The values the connectivity adapter can remember: none or advertising. *)
Definition is_remembered_link (x : Z) : bool :=
  (x =? PATTERN_UNKNOWN) || (x =? PATTERN_ADVERTISING).

(** What [process_message] makes of a mask: the mask it leaves in a state that
    held [patterns]. *)
Definition mask_after (m : message_item) (patterns : Z) : Z :=
  led_current_patterns (process_message m (set_led_current_patterns patterns boot)).

(** The mask the engine will hold once it has applied everything that is on
    the queue now. *)
Definition pending_mask (w : widget) : Z :=
  led_current_patterns (process_messages (led_msgq w) w).

(** The mask, with the queued messages applied, shows exactly the conditions
    the two pattern adapters remember. *)
Definition mirrors (w : widget) : Prop :=
  0 <= led_current_patterns w < 256 /\
  is_battery_tier (current_battery_pattern w) = true /\
  is_remembered_link (current_connectivity_pattern w) = true /\
  forall i, 0 <= i ->
    Z.testbit (pending_mask w) i =
    (i =? current_battery_pattern w) || (i =? current_connectivity_pattern w).

(** The variables only the consumer thread writes. *)
Definition same_engine (w w' : widget) : Prop :=
  led_current_color w' = led_current_color w /\
  led_default_color w' = led_default_color w /\
  led_current_patterns w' = led_current_patterns w /\
  io_log w' = io_log w.

(** The variables only the producers write. *)
Definition same_adapters (w w' : widget) : Prop :=
  initialized w' = initialized w /\
  usb_current_powered w' = usb_current_powered w /\
  current_connectivity_pattern w' = current_connectivity_pattern w /\
  indicate_connectivity_work w' = indicate_connectivity_work w /\
  current_battery_pattern w' = current_battery_pattern w.

(** The readings [0 .. n-1] of the battery are all zero after conversion to
    [uint8_t]. *)
Definition readings_zero (env : platform) (n : nat) : Prop :=
  forall k, (k < n)%nat -> u8 (zmk_battery_state_of_charge env k) = 0.

(** What a producer may do to the state: leave the consumer's variables
    alone and append at most [n] messages to the queue, which stays within its
    capacity when it was. *)
Definition appends_at_most (n : nat) (w w' : widget) : Prop :=
  same_engine w w' /\
  exists added,
    led_msgq w' = led_msgq w ++ added /\
    (length added <= n)%nat /\
    (length (led_msgq w') <= Nat.max (length (led_msgq w)) led_msgq_capacity)%nat.

(** The producers' side of the state is well formed: everything on the queue
    was built by an adapter, and the two pattern adapters remember values they
    can have stored. *)
Definition producers_ok (w : widget) : Prop :=
  forallb adapter_message (led_msgq w) = true /\
  is_battery_tier (current_battery_pattern w) = true /\
  is_remembered_link (current_connectivity_pattern w) = true.

(** ** Sample configurations and inputs *)

Definition sample_cfg : kconfig :=
  mk_kconfig 200 200 1000 600 3000 false false true false true.

Definition peripheral_cfg : kconfig :=
  mk_kconfig 200 200 1000 600 3000 true false true true true.

Definition sample_env (powered connected open : bool) (soc : Z) : platform :=
  mk_platform powered connected open connected (fun _ => soc).

(** An initialised widget with a given mask and queue, LED and base colour off. *)
Definition sample_widget (patterns : Z) (q : list message_item) : widget :=
  mk_widget true COLOR_OFF q false PATTERN_UNKNOWN false PATTERN_UNKNOWN
            COLOR_OFF patterns [].

(** * Properties *)

(** ** Basic facts about the state and the fixed-width operations *)

Lemma u8_small (x : Z) : 0 <= x < 256 -> u8 x = x.
Proof. intros H. unfold u8. apply Z.mod_small. exact H. Qed.

Lemma u8_range (x : Z) : 0 <= u8 x < 256.
Proof. unfold u8. apply Z.mod_pos_bound. lia. Qed.

Lemma u8_testbit (x i : Z) :
  Z.testbit (u8 x) i = (i <? 8) && Z.testbit x i.
Proof.
  unfold u8. change 256 with (2 ^ 8). apply Z.testbit_mod_pow2. lia.
Qed.

Lemma widget_eta (w : widget) :
  mk_widget (initialized w) (led_current_color w) (led_msgq w)
    (usb_current_powered w) (current_connectivity_pattern w)
    (indicate_connectivity_work w) (current_battery_pattern w)
    (led_default_color w) (led_current_patterns w) (io_log w) = w.
Proof. destruct w; reflexivity. Qed.

Lemma set_led_default_color_same (color duration_ms : Z) (w : widget) :
  led_default_color (set_led color duration_ms w) = led_default_color w.
Proof.
  unfold set_led.
  destruct (negb (led_current_color w =? color)), (0 <? duration_ms); reflexivity.
Qed.

Lemma set_led_patterns_same (color duration_ms : Z) (w : widget) :
  led_current_patterns (set_led color duration_ms w) = led_current_patterns w.
Proof.
  unfold set_led.
  destruct (negb (led_current_color w =? color)), (0 <? duration_ms); reflexivity.
Qed.

Lemma drive_app (l1 l2 : list (Z * Z)) (w : widget) :
  drive (l1 ++ l2) w = drive l2 (drive l1 w).
Proof. unfold drive. apply fold_left_app. Qed.

Lemma drive_default_color_same (l : list (Z * Z)) (w : widget) :
  led_default_color (drive l w) = led_default_color w.
Proof.
  revert w. induction l as [|r l IH]; intros w; [reflexivity|].
  cbn [drive fold_left]. fold (drive l (set_led (fst r) (snd r) w)).
  rewrite IH. apply set_led_default_color_same.
Qed.

Lemma intersperse_repeat_SS {A : Type} (sep x : A) (n : nat) :
  intersperse sep (repeat x (S (S n))) =
  x :: sep :: intersperse sep (repeat x (S n)).
Proof. reflexivity. Qed.

(** ** The blink loop *)

(** The loop of [display_pattern] leaves through its own test and issues the
    blinks that remain, separated by gaps. *)
Lemma display_pattern_loop_spec (p : pattern) (k : nat) :
  forall (fuel : nat) (i : Z) (w : widget),
    0 <= i -> i + Z.of_nat k = times p -> times p < 256 -> (k < fuel)%nat ->
    display_pattern_loop fuel p i w =
    Some (drive (intersperse (led_default_color w, sleep_ms p)
                   (repeat (inverse (led_default_color w), duration_ms p) k)) w).
Proof.
  induction k as [|k IH]; intros fuel i w Hi Hk Hp Hfuel.
  - destruct fuel as [|fuel]; [lia|]. cbn [display_pattern_loop].
    replace (i <? times p) with false by (symmetry; apply Z.ltb_ge; lia).
    reflexivity.
  - destruct fuel as [|fuel]; [lia|]. cbn [display_pattern_loop].
    replace (i <? times p) with true by (symmetry; apply Z.ltb_lt; lia).
    rewrite (u8_small (i + 1)) by lia.
    destruct k as [|k].
    + replace (i <? times p - 1) with false by (symmetry; apply Z.ltb_ge; lia).
      rewrite IH by lia. reflexivity.
    + replace (i <? times p - 1) with true by (symmetry; apply Z.ltb_lt; lia).
      rewrite IH by lia.
      rewrite !set_led_default_color_same.
      rewrite intersperse_repeat_SS. reflexivity.
Qed.

Lemma PATTERNS_lookup (cfg : kconfig) (idx : Z) :
  0 <= idx < PATTERNS_len cfg ->
  exists p, nth_error (PATTERNS cfg) (Z.to_nat idx) = Some p /\ 0 <= times p < 256.
Proof.
  unfold PATTERNS_len. cbn [PATTERNS length]. intros H.
  assert (idx = 0 \/ idx = 1 \/ idx = 2 \/ idx = 3 \/ idx = 4) as Hc by lia.
  destruct Hc as [-> | [-> | [-> | [-> | ->]]]];
    (eexists; split; [reflexivity | cbn [times]; lia]).
Qed.

(** For an index inside the table, [display_pattern] returns, and what it does
    is the rendering the specification describes. *)
Lemma display_pattern_valid (cfg : kconfig) (idx : Z) (w : widget) :
  0 <= idx < PATTERNS_len cfg ->
  exists p,
    nth_error (PATTERNS cfg) (Z.to_nat idx) = Some p /\
    display_pattern cfg idx w =
    Some (drive (render_requests (led_default_color w) p
                   (u16 (CONFIG_LED_WIDGET_INTERVAL_MS cfg))) w).
Proof.
  intros H. destruct (PATTERNS_lookup cfg idx H) as [p [Hp Ht]].
  exists p. split; [exact Hp|].
  unfold display_pattern.
  replace (PATTERNS_len cfg <=? idx) with false by (symmetry; apply Z.leb_gt; lia).
  rewrite Hp.
  rewrite (display_pattern_loop_spec p (Z.to_nat (times p))) by lia.
  unfold render_requests. rewrite drive_app.
  rewrite drive_default_color_same. reflexivity.
Qed.

(** For any index a [uint8_t] can hold, [display_pattern] returns. *)
Lemma display_pattern_total (cfg : kconfig) (idx : Z) (w : widget) :
  0 <= idx -> exists w', display_pattern cfg idx w = Some w'.
Proof.
  intros H. destruct (Z_lt_le_dec idx (PATTERNS_len cfg)) as [Hlt | Hge].
  - destruct (display_pattern_valid cfg idx w) as [p [_ Hd]]; [lia|].
    eexists. exact Hd.
  - unfold display_pattern.
    replace (PATTERNS_len cfg <=? idx) with true by (symmetry; apply Z.leb_le; lia).
    eexists. reflexivity.
Qed.

(** ** The bit scan *)

Lemma bit_length_shiftr (v : Z) :
  0 < v -> bit_length v = bit_length (Z.shiftr v 1) + 1.
Proof.
  intros Hv. unfold bit_length.
  replace (v =? 0) with false by (symmetry; apply Z.eqb_neq; lia).
  destruct (Z.eq_dec v 1) as [-> | Hne]; [reflexivity|].
  assert (1 <= Z.log2 v) by (apply (Z.log2_le_mono 2 v); lia).
  assert (0 < Z.shiftr v 1) as Hs.
  { rewrite Z.shiftr_div_pow2 by lia. change (2 ^ 1) with 2.
    apply Z.div_str_pos. lia. }
  replace (Z.shiftr v 1 =? 0) with false by (symmetry; apply Z.eqb_neq; lia).
  rewrite Z.log2_shiftr by lia. lia.
Qed.

Lemma highest_bit_loop_S (fuel : nat) (v h : Z) :
  highest_bit_loop (S fuel) v h =
  if negb (v =? 0)
  then highest_bit_loop fuel (u8 (Z.shiftr v 1)) (u8 (h + 1))
  else Some h.
Proof. reflexivity. Qed.

Lemma highest_bit_loop_spec (n : nat) :
  forall v h : Z,
    0 <= v < 2 ^ Z.of_nat n -> v < 256 -> 0 <= h -> h + Z.of_nat n < 256 ->
    highest_bit_loop (S n) v h = Some (h + bit_length v).
Proof.
  induction n as [|n IH]; intros v h Hv Hv8 Hh Hn.
  - change (2 ^ Z.of_nat 0) with 1 in Hv. assert (v = 0) by lia. subst v.
    cbn. f_equal. lia.
  - rewrite highest_bit_loop_S.
    destruct (Z.eqb_spec v 0) as [-> | Hne]; cbn [negb].
    + unfold bit_length. cbn [Z.eqb]. f_equal. lia.
    + assert (0 <= Z.shiftr v 1 < 2 ^ Z.of_nat n /\ Z.shiftr v 1 < 256) as [Hs Hs8].
      { rewrite Z.shiftr_div_pow2 by lia. change (2 ^ 1) with 2.
        rewrite Nat2Z.inj_succ, Z.pow_succ_r in Hv by lia.
        repeat split; [apply Z.div_pos; lia | | ];
          apply Z.div_lt_upper_bound; lia. }
      rewrite (u8_small (Z.shiftr v 1)) by lia.
      rewrite (u8_small (h + 1)) by lia.
      rewrite IH by lia.
      rewrite (bit_length_shiftr v) by lia. f_equal. lia.
Qed.

Lemma highest_priority_pattern_log2 (patterns : Z) :
  0 < patterns < 256 ->
  highest_priority_pattern patterns = Some (Z.log2 patterns).
Proof.
  intros H. unfold highest_priority_pattern.
  assert (0 <= Z.shiftr patterns 1 < 2 ^ 7) as Hs.
  { rewrite Z.shiftr_div_pow2 by lia. change (2 ^ 1) with 2.
    split; [apply Z.div_pos; lia | apply Z.div_lt_upper_bound; lia]. }
  change (2 ^ 7) with 128 in Hs.
  rewrite (u8_small (Z.shiftr patterns 1)) by lia.
  rewrite (highest_bit_loop_spec 8) by (change (2 ^ Z.of_nat 8) with 256; lia).
  f_equal. cbn [Z.add].
  destruct (Z.eq_dec patterns 1) as [-> | Hne]; [reflexivity|].
  pose proof (bit_length_shiftr patterns ltac:(lia)) as Hb.
  unfold bit_length at 1 in Hb.
  replace (patterns =? 0) with false in Hb by (symmetry; apply Z.eqb_neq; lia).
  lia.
Qed.

Lemma log2_highest_set_bit (x : Z) : 0 < x -> highest_set_bit x (Z.log2 x).
Proof.
  intros H. split.
  - apply Z.bit_log2. exact H.
  - intros j Hj. apply Z.bits_above_log2; lia.
Qed.

(** ** Bit-level effect of the two updates of the pattern mask *)

Lemma testbit_small_u8 (p i : Z) :
  0 <= p < 256 -> Z.testbit p i = (i <? 8) && Z.testbit p i.
Proof.
  intros H. rewrite <- u8_testbit. rewrite u8_small by exact H. reflexivity.
Qed.

Lemma testbit_one_shifted (n i : Z) :
  0 <= n -> Z.testbit (Z.shiftl 1 n) i = (i =? n).
Proof.
  intros H. rewrite Z.shiftl_1_l. rewrite Z.pow2_bits_eqb by exact H.
  apply Z.eqb_sym.
Qed.

Lemma clear_bit_testbit (p off i : Z) :
  0 <= p < 256 -> 0 <= off -> 0 <= i ->
  Z.testbit (u8 (Z.land p (Z.lnot (Z.shiftl 1 off)))) i =
  Z.testbit p i && negb (i =? off).
Proof.
  intros Hp Hoff Hi.
  rewrite u8_testbit, Z.land_spec, Z.lnot_spec by exact Hi.
  rewrite testbit_one_shifted by exact Hoff.
  rewrite (testbit_small_u8 p i Hp).
  destruct (i <? 8), (Z.testbit p i), (i =? off); reflexivity.
Qed.

Lemma set_bit_testbit (p on i : Z) :
  0 <= p < 256 -> 0 <= on < 8 -> 0 <= i ->
  Z.testbit (u8 (Z.lor p (Z.shiftl 1 on))) i = Z.testbit p i || (i =? on).
Proof.
  intros Hp Hon Hi.
  rewrite u8_testbit, Z.lor_spec.
  rewrite testbit_one_shifted by lia.
  rewrite (testbit_small_u8 p i Hp).
  destruct (Z.eqb_spec i on) as [-> | Hne].
  - replace (on <? 8) with true by (symmetry; apply Z.ltb_lt; lia).
    destruct (Z.testbit p on); reflexivity.
  - destruct (i <? 8), (Z.testbit p i); reflexivity.
Qed.

Lemma is_pattern_type_range (x : Z) :
  is_pattern_type x = true -> -1 <= x <= 4.
Proof.
  unfold is_pattern_type, PATTERN_UNKNOWN, PATTERN_CONNECTED.
  rewrite andb_true_iff, !Z.leb_le. lia.
Qed.

(** A pattern swap with fields from the enumeration changes nothing but the
    mask, and the new mask is the old one with bit [off] cleared and then bit
    [on] set.  The sentinel [-1] is no bit position, so it matches no [i]. *)
Lemma process_pattern_swap (msg : message_item) (w : widget) :
  0 <= led_current_patterns w < 256 ->
  type msg = MESSAGE_PATTERN_SWAP ->
  is_pattern_type (pattern_off msg) = true ->
  is_pattern_type (pattern_on msg) = true ->
  exists patterns',
    process_message msg w = set_led_current_patterns patterns' w /\
    0 <= patterns' < 256 /\
    forall i, 0 <= i ->
      Z.testbit patterns' i =
      (i =? pattern_on msg)
      || (Z.testbit (led_current_patterns w) i && negb (i =? pattern_off msg)).
Proof.
  intros Hp Ht Hoff Hon.
  apply is_pattern_type_range in Hoff. apply is_pattern_type_range in Hon.
  unfold process_message. rewrite Ht. cbn [Z.eqb MESSAGE_PATTERN_SWAP MESSAGE_COLOR_SET].
  unfold PATTERN_UNKNOWN.
  destruct (Z.eqb_spec (pattern_off msg) (-1)) as [Eoff | Noff];
    destruct (Z.eqb_spec (pattern_on msg) (-1)) as [Eon | Non]; cbn [negb].
  - exists (led_current_patterns w). split; [| split; [exact Hp|]].
    + unfold set_led_current_patterns. symmetry. apply widget_eta.
    + intros i Hi. rewrite Eoff, Eon.
      replace (i =? -1) with false by (symmetry; apply Z.eqb_neq; lia).
      cbn [orb negb]. rewrite andb_true_r. reflexivity.
  - eexists. split; [reflexivity|]. split; [apply u8_range|].
    intros i Hi. rewrite set_bit_testbit by lia. rewrite Eoff.
    replace (i =? -1) with false by (symmetry; apply Z.eqb_neq; lia).
    cbn [negb]. rewrite andb_true_r. apply orb_comm.
  - eexists. split; [reflexivity|]. split; [apply u8_range|].
    intros i Hi. rewrite clear_bit_testbit by lia. rewrite Eon.
    replace (i =? -1) with false by (symmetry; apply Z.eqb_neq; lia).
    reflexivity.
  - eexists. split; [reflexivity|]. split; [apply u8_range|].
    intros i Hi. cbn [led_current_patterns set_led_current_patterns].
    rewrite set_bit_testbit by (try apply u8_range; lia).
    rewrite clear_bit_testbit by lia. apply orb_comm.
Qed.

Lemma bits_below_bound (x n : Z) :
  0 <= x -> 0 <= n ->
  (forall i, n <= i -> Z.testbit x i = false) -> x < 2 ^ n.
Proof.
  intros Hx Hn Hbits.
  destruct (Z.eq_dec x 0) as [-> | Hne]; [apply Z.pow_pos_nonneg; lia|].
  apply Z.log2_lt_pow2; [lia|].
  destruct (Z_lt_le_dec (Z.log2 x) n) as [Hlt | Hge]; [exact Hlt|].
  pose proof (Z.bit_log2 x ltac:(lia)) as Hb.
  rewrite (Hbits (Z.log2 x) Hge) in Hb. discriminate.
Qed.

(** ** Messages that only assert conditions commute *)

Lemma process_messages_cons (m : message_item) (l : list message_item) (w : widget) :
  process_messages (m :: l) w = process_messages l (process_message m w).
Proof. reflexivity. Qed.

Lemma asserts_only_swap (m : message_item) :
  asserts_only m = true ->
  type m = MESSAGE_PATTERN_SWAP /\
  pattern_off m = PATTERN_UNKNOWN /\
  is_pattern_type (pattern_off m) = true /\
  is_pattern_type (pattern_on m) = true.
Proof.
  unfold asserts_only. rewrite !andb_true_iff, !Z.eqb_eq.
  intros [[Ht Hoff] Hon]. rewrite Hoff. repeat split; assumption.
Qed.

Lemma set_led_current_patterns_twice (a b : Z) (w : widget) :
  set_led_current_patterns a (set_led_current_patterns b w) =
  set_led_current_patterns a w.
Proof. reflexivity. Qed.

Lemma process_assert_commute (m1 m2 : message_item) (w : widget) :
  0 <= led_current_patterns w < 256 ->
  asserts_only m1 = true -> asserts_only m2 = true ->
  process_message m1 (process_message m2 w) =
  process_message m2 (process_message m1 w).
Proof.
  intros Hp H1 H2.
  destruct (asserts_only_swap m1 H1) as [T1 [O1 [E1 N1]]].
  destruct (asserts_only_swap m2 H2) as [T2 [O2 [E2 N2]]].
  destruct (process_pattern_swap m1 w Hp T1 E1 N1) as [p1 [R1 [B1 S1]]].
  destruct (process_pattern_swap m2 w Hp T2 E2 N2) as [p2 [R2 [B2 S2]]].
  rewrite R1, R2.
  destruct (process_pattern_swap m1 (set_led_current_patterns p2 w) B2 T1 E1 N1)
    as [p12 [R12 [B12 S12]]].
  destruct (process_pattern_swap m2 (set_led_current_patterns p1 w) B1 T2 E2 N2)
    as [p21 [R21 [B21 S21]]].
  rewrite R12, R21, !set_led_current_patterns_twice. f_equal.
  apply Z.bits_inj'. intros i Hi.
  rewrite S12, S21 by exact Hi. cbn [led_current_patterns set_led_current_patterns].
  rewrite S1, S2 by exact Hi. rewrite O1, O2.
  replace (i =? PATTERN_UNKNOWN) with false
    by (symmetry; apply Z.eqb_neq; unfold PATTERN_UNKNOWN; lia).
  destruct (i =? pattern_on m1), (i =? pattern_on m2),
    (Z.testbit (led_current_patterns w) i); reflexivity.
Qed.

Lemma process_assert_range (m : message_item) (w : widget) :
  0 <= led_current_patterns w < 256 -> asserts_only m = true ->
  0 <= led_current_patterns (process_message m w) < 256.
Proof.
  intros Hp H. destruct (asserts_only_swap m H) as [T [_ [E N]]].
  destruct (process_pattern_swap m w Hp T E N) as [p [R [B _]]].
  rewrite R. exact B.
Qed.

Lemma process_asserts_permutation (l1 l2 : list message_item) :
  Permutation l1 l2 ->
  forall w, 0 <= led_current_patterns w < 256 ->
    forallb asserts_only l1 = true ->
    process_messages l1 w = process_messages l2 w.
Proof.
  induction 1 as [| x l l' HP IH | x y l | l l' l'' HP1 IH1 HP2 IH2];
    intros w Hw Hall.
  - reflexivity.
  - cbn [forallb] in Hall. apply andb_true_iff in Hall as [Hx Hl].
    rewrite !process_messages_cons.
    apply IH; [apply process_assert_range; assumption | exact Hl].
  - cbn [forallb] in Hall.
    apply andb_true_iff in Hall as [Hy Hall].
    apply andb_true_iff in Hall as [Hx Hl].
    rewrite !process_messages_cons.
    rewrite (process_assert_commute x y w Hw Hx Hy). reflexivity.
  - rewrite (IH1 w Hw Hall). apply (IH2 w Hw).
    rewrite forallb_forall in *. intros m Hm.
    apply Hall. apply (Permutation_in m (Permutation_sym HP1)). exact Hm.
Qed.

(** ** C1: priority correctness *)

(** C1. Whenever the mask of active patterns is non-empty after a message has
    been applied, the pass of the engine loop calls [display_pattern] with the
    index the bit scan returns, and that index is the position of the highest
    set bit of the mask.  This holds for every non-empty eight-bit mask.  The
    mask, and with it the index, does not depend on the order in which the
    conditions were asserted. *)
Theorem priority_correctness (cfg : kconfig) (uninit msg : message_item)
  (w w0 : widget) :
  led_process_receive uninit w = Some (msg, w0) ->
  0 < led_current_patterns (process_message msg w0) < 256 ->
  (exists idx w',
     highest_priority_pattern (led_current_patterns (process_message msg w0))
       = Some idx /\
     highest_set_bit (led_current_patterns (process_message msg w0)) idx /\
     display_pattern cfg idx (process_message msg w0) = Some w' /\
     led_process_iteration cfg uninit w = completed w') /\
  (forall patterns, 0 < patterns < 256 ->
     exists idx, highest_priority_pattern patterns = Some idx /\
                 highest_set_bit patterns idx) /\
  (forall l1 l2 e, Permutation l1 l2 -> forallb asserts_only l1 = true ->
     0 <= led_current_patterns e < 256 ->
     led_current_patterns (process_messages l1 e) =
     led_current_patterns (process_messages l2 e)).
Proof.
  intros Hrecv Hmask. split; [| split].
  - set (w1 := process_message msg w0) in *.
    destruct (display_pattern_total cfg (Z.log2 (led_current_patterns w1)) w1)
      as [w' Hd]; [apply Z.log2_nonneg|].
    exists (Z.log2 (led_current_patterns w1)), w'.
    split; [apply highest_priority_pattern_log2; exact Hmask|].
    split; [apply log2_highest_set_bit; lia|].
    split; [exact Hd|].
    unfold led_process_iteration. rewrite Hrecv. fold w1.
    unfold led_process_display.
    replace (led_current_patterns w1 =? 0) with false
      by (symmetry; apply Z.eqb_neq; lia).
    rewrite highest_priority_pattern_log2 by exact Hmask.
    rewrite Hd. reflexivity.
  - intros patterns Hp. exists (Z.log2 patterns).
    split; [apply highest_priority_pattern_log2; exact Hp|].
    apply log2_highest_set_bit. lia.
  - intros l1 l2 e HP Hall He.
    rewrite (process_asserts_permutation l1 l2 HP e He Hall). reflexivity.
Qed.

Lemma priority_correctness_witness :
  let w := sample_widget 1 [pattern_swap PATTERN_UNKNOWN PATTERN_ADVERTISING] in
  let msg := pattern_swap PATTERN_UNKNOWN PATTERN_ADVERTISING in
  let w0 := sample_widget 1 [] in
  led_process_receive (color_set COLOR_OFF) w = Some (msg, w0) /\
  0 < led_current_patterns (process_message msg w0) < 256 /\
  exists idx w',
    highest_priority_pattern (led_current_patterns (process_message msg w0))
      = Some idx /\
    highest_set_bit (led_current_patterns (process_message msg w0)) idx /\
    display_pattern sample_cfg idx (process_message msg w0) = Some w' /\
    led_process_iteration sample_cfg (color_set COLOR_OFF) w = completed w'.
Proof.
  intros w msg w0.
  assert (led_process_receive (color_set COLOR_OFF) w = Some (msg, w0)) as H1
    by reflexivity.
  assert (0 < led_current_patterns (process_message msg w0) < 256) as H2
    by (vm_compute; split; reflexivity).
  split; [exact H1|]. split; [exact H2|].
  exact (proj1 (priority_correctness sample_cfg (color_set COLOR_OFF) msg w w0 H1 H2)).
Defined.

(** ** C6: what applying a message does *)

(** C6. A colour-set message replaces the base colour by the colour it carries
    and leaves the mask of active patterns as it was.  A pattern-swap message
    with fields [off] and [on] from the enumeration first clears bit [off]
    unless [off] is the sentinel, then sets bit [on] unless [on] is the
    sentinel, and leaves the base colour as it was; nothing else changes in
    either case. *)
Theorem message_application (msg : message_item) (w : widget) :
  0 <= led_current_patterns w < 256 ->
  (type msg = MESSAGE_COLOR_SET ->
     process_message msg w = set_led_default_color (msg_color msg) w /\
     led_default_color (process_message msg w) = msg_color msg /\
     led_current_patterns (process_message msg w) = led_current_patterns w) /\
  (type msg = MESSAGE_PATTERN_SWAP ->
   is_pattern_type (pattern_off msg) = true ->
   is_pattern_type (pattern_on msg) = true ->
     led_default_color (process_message msg w) = led_default_color w /\
     exists patterns',
       process_message msg w = set_led_current_patterns patterns' w /\
       0 <= patterns' < 256 /\
       forall i, 0 <= i ->
         Z.testbit patterns' i =
         (i =? pattern_on msg)
         || (Z.testbit (led_current_patterns w) i
             && negb (i =? pattern_off msg))).
Proof.
  intros Hp. split.
  - intros Ht. unfold process_message. rewrite Ht.
    cbn [Z.eqb MESSAGE_COLOR_SET]. repeat split.
  - intros Ht Hoff Hon.
    destruct (process_pattern_swap msg w Hp Ht Hoff Hon) as [p' [R [B S]]].
    split.
    + rewrite R. reflexivity.
    + exists p'. repeat split; try assumption; apply B.
Qed.

Lemma message_application_witness :
  let w := sample_widget 9 [] in
  let msg := pattern_swap PATTERN_ADVERTISING PATTERN_BATT_10 in
  0 <= led_current_patterns w < 256 /\
  led_default_color (process_message msg w) = led_default_color w /\
  exists patterns',
    process_message msg w = set_led_current_patterns patterns' w /\
    0 <= patterns' < 256 /\
    forall i, 0 <= i ->
      Z.testbit patterns' i =
      (i =? pattern_on msg)
      || (Z.testbit (led_current_patterns w) i && negb (i =? pattern_off msg)).
Proof.
  intros w msg.
  assert (0 <= led_current_patterns w < 256) as H by (vm_compute; split; [discriminate | reflexivity]).
  split; [exact H|].
  exact (proj2 (message_application msg w H) eq_refl eq_refl eq_refl).
Defined.

(** ** C7: rendering a pattern *)

(** C7. For every index inside the pattern table, [display_pattern] returns,
    and the [set_led] calls it makes are those of the specification: as many
    blinks as the pattern's repeat count, each at the inverse of the base
    colour for the on-duration; the base colour for the gap duration between
    each two blinks and not after the last; and finally the base colour for
    the rest interval. *)
Theorem pattern_rendering (cfg : kconfig) (pattern_index : Z) (w : widget) :
  0 <= pattern_index < PATTERNS_len cfg ->
  exists p,
    nth_error (PATTERNS cfg) (Z.to_nat pattern_index) = Some p /\
    display_pattern cfg pattern_index w =
    Some (drive (render_requests (led_default_color w) p
                   (u16 (CONFIG_LED_WIDGET_INTERVAL_MS cfg))) w).
Proof. apply display_pattern_valid. Qed.

Lemma pattern_rendering_witness :
  0 <= PATTERN_BATT_30 < PATTERNS_len sample_cfg /\
  exists p,
    nth_error (PATTERNS sample_cfg) (Z.to_nat PATTERN_BATT_30) = Some p /\
    display_pattern sample_cfg PATTERN_BATT_30 (sample_widget 1 []) =
    Some (drive (render_requests (led_default_color (sample_widget 1 [])) p
                   (u16 (CONFIG_LED_WIDGET_INTERVAL_MS sample_cfg)))
                (sample_widget 1 [])).
Proof.
  assert (0 <= PATTERN_BATT_30 < PATTERNS_len sample_cfg) as H
    by (vm_compute; split; [discriminate | reflexivity]).
  split; [exact H|].
  exact (pattern_rendering sample_cfg PATTERN_BATT_30 (sample_widget 1 []) H).
Defined.

(** The three-blink battery pattern at the sample durations, as the driver and
    the sleep primitive see it. *)
Example display_pattern_batt_30 :
  option_map io_log (display_pattern sample_cfg PATTERN_BATT_30 (sample_widget 1 [])) =
  Some [led_on; k_sleep 200; led_off; k_sleep 200;
        led_on; k_sleep 200; led_off; k_sleep 200;
        led_on; k_sleep 200; led_off; k_sleep 3000].
Proof. reflexivity. Qed.

(** ** C8: an index outside the table *)

(** C8. For every index at or beyond the number of patterns, [display_pattern]
    returns after logging the warning: it calls neither the LED driver nor the
    sleep primitive and changes no variable.  A pass of the engine loop that
    computes such an index reaches the end of the loop body. *)
Theorem invalid_pattern_index (cfg : kconfig) (pattern_index : Z) (w : widget) :
  PATTERNS_len cfg <= pattern_index ->
  display_pattern cfg pattern_index w =
    Some (emit (warn_invalid_pattern_index pattern_index) w) /\
  (forall w', display_pattern cfg pattern_index w = Some w' ->
     io_log w' = io_log w ++ [warn_invalid_pattern_index pattern_index] /\
     led_current_color w' = led_current_color w /\
     led_default_color w' = led_default_color w /\
     led_current_patterns w' = led_current_patterns w /\
     led_msgq w' = led_msgq w) /\
  (led_current_patterns w <> 0 ->
   highest_priority_pattern (led_current_patterns w) = Some pattern_index ->
   led_process_display cfg w =
     completed (emit (warn_invalid_pattern_index pattern_index) w)).
Proof.
  intros H.
  assert (display_pattern cfg pattern_index w =
          Some (emit (warn_invalid_pattern_index pattern_index) w)) as Hd.
  { unfold display_pattern.
    replace (PATTERNS_len cfg <=? pattern_index) with true
      by (symmetry; apply Z.leb_le; exact H).
    reflexivity. }
  split; [exact Hd|]. split.
  - intros w' Hw'. rewrite Hd in Hw'. injection Hw' as <-. repeat split.
  - intros Hne Hidx. unfold led_process_display.
    replace (led_current_patterns w =? 0) with false
      by (symmetry; apply Z.eqb_neq; exact Hne).
    rewrite Hidx, Hd. reflexivity.
Qed.

Lemma invalid_pattern_index_witness :
  PATTERNS_len sample_cfg <= 6 /\
  display_pattern sample_cfg 6 (sample_widget 64 []) =
    Some (emit (warn_invalid_pattern_index 6) (sample_widget 64 [])).
Proof.
  assert (PATTERNS_len sample_cfg <= 6) as H by (vm_compute; discriminate).
  split; [exact H|].
  exact (proj1 (invalid_pattern_index sample_cfg 6 (sample_widget 64 []) H)).
Defined.

(** ** C10: the mask stays inside the pattern table *)

Lemma process_message_below_32 (m : message_item) (w : widget) :
  0 <= led_current_patterns w < 32 -> swap_in_enum m = true ->
  0 <= led_current_patterns (process_message m w) < 32.
Proof.
  intros Hp Hm. unfold swap_in_enum in Hm.
  destruct (Z.eqb_spec (type m) MESSAGE_PATTERN_SWAP) as [Ht | Ht]; cbn [negb orb] in Hm.
  - apply andb_true_iff in Hm as [Hoff Hon].
    destruct (process_pattern_swap m w ltac:(lia) Ht Hoff Hon) as [p' [R [B S]]].
    rewrite R. cbn [led_current_patterns set_led_current_patterns].
    split; [lia|]. change 32 with (2 ^ 5).
    apply bits_below_bound; [lia | lia |].
    intros i Hi. rewrite S by lia.
    apply is_pattern_type_range in Hon.
    replace (i =? pattern_on m) with false by (symmetry; apply Z.eqb_neq; lia).
    rewrite (Z.bits_above_log2 (led_current_patterns w) i); [reflexivity | lia |].
    destruct (Z.eq_dec (led_current_patterns w) 0) as [-> | Hne]; [cbn; lia|].
    assert (Z.log2 (led_current_patterns w) < 5)
      by (apply Z.log2_lt_pow2; [lia | change (2 ^ 5) with 32; lia]).
    lia.
  - unfold process_message.
    destruct (type m =? MESSAGE_COLOR_SET); [exact Hp|].
    replace (type m =? MESSAGE_PATTERN_SWAP) with false
      by (symmetry; apply Z.eqb_neq; exact Ht).
    exact Hp.
Qed.

Lemma process_messages_below_32 (msgs : list message_item) :
  forall w, 0 <= led_current_patterns w < 32 ->
    forallb swap_in_enum msgs = true ->
    0 <= led_current_patterns (process_messages msgs w) < 32.
Proof.
  induction msgs as [|m msgs IH]; intros w Hp Hall; [exact Hp|].
  cbn [forallb] in Hall. apply andb_true_iff in Hall as [Hm Hall].
  rewrite process_messages_cons.
  apply IH; [apply process_message_below_32; assumption | exact Hall].
Qed.

(** C10. If every pattern-swap message that is applied carries fields from the
    [pattern_type] enumeration, the mask of active patterns, starting below
    32, stays below 32: only bits 0 to 4 are ever set.  Whenever the mask is
    then non-empty, the index the bit scan computes lies inside the pattern
    table, and [display_pattern] renders that pattern instead of taking its
    invalid-index branch. *)
Theorem patterns_stay_in_table (cfg : kconfig) (msgs : list message_item)
  (w : widget) :
  0 <= led_current_patterns w < 32 ->
  forallb swap_in_enum msgs = true ->
  0 <= led_current_patterns (process_messages msgs w) < 32 /\
  (led_current_patterns (process_messages msgs w) <> 0 ->
   exists idx p,
     highest_priority_pattern (led_current_patterns (process_messages msgs w))
       = Some idx /\
     0 <= idx < PATTERNS_len cfg /\
     nth_error (PATTERNS cfg) (Z.to_nat idx) = Some p /\
     display_pattern cfg idx (process_messages msgs w) =
     Some (drive (render_requests
                    (led_default_color (process_messages msgs w)) p
                    (u16 (CONFIG_LED_WIDGET_INTERVAL_MS cfg)))
                 (process_messages msgs w))).
Proof.
  intros Hp Hall.
  pose proof (process_messages_below_32 msgs w Hp Hall) as Hb.
  split; [exact Hb|]. intros Hne.
  set (w' := process_messages msgs w) in *.
  assert (0 <= Z.log2 (led_current_patterns w') < PATTERNS_len cfg) as Hidx.
  { split; [apply Z.log2_nonneg|].
    change (PATTERNS_len cfg) with 5.
    apply Z.log2_lt_pow2; [lia | change (2 ^ 5) with 32; lia]. }
  destruct (display_pattern_valid cfg _ w' Hidx) as [p [Hn Hd]].
  exists (Z.log2 (led_current_patterns w')), p.
  split; [apply highest_priority_pattern_log2; lia|].
  split; [exact Hidx|]. split; assumption.
Qed.

Lemma patterns_stay_in_table_witness :
  let msgs := [pattern_swap PATTERN_UNKNOWN PATTERN_BATT_30;
               color_set COLOR_ON;
               pattern_swap PATTERN_UNKNOWN PATTERN_CONNECTED;
               pattern_swap PATTERN_BATT_30 PATTERN_BATT_20] in
  0 <= led_current_patterns boot < 32 /\
  forallb swap_in_enum msgs = true /\
  0 <= led_current_patterns (process_messages msgs boot) < 32.
Proof.
  intros msgs.
  assert (0 <= led_current_patterns boot < 32) as H1
    by (vm_compute; split; [discriminate | reflexivity]).
  assert (forallb swap_in_enum msgs = true) as H2 by reflexivity.
  split; [exact H1|]. split; [exact H2|].
  exact (proj1 (patterns_stay_in_table sample_cfg msgs boot H1 H2)).
Defined.

(** ** C9: nothing is sent before initialisation has finished *)

Lemma indicate_battery_loop_total (env : platform) (fuel : nat) :
  forall (retry : Z) (polls : nat) (battery_level : Z),
    0 <= retry -> Z.max 0 (10 - retry) < Z.of_nat fuel ->
    exists level, indicate_battery_loop env fuel retry polls battery_level = Some level.
Proof.
  induction fuel as [|fuel IH]; intros retry polls level Hr Hf; [lia|].
  cbn [indicate_battery_loop].
  destruct (level =? 0); cbn [andb]; [| eexists; reflexivity].
  destruct (Z.ltb_spec retry 10) as [Hlt | Hge]; [| eexists; reflexivity].
  apply IH; lia.
Qed.

(** C9. While [initialized] is false, each of the three listener callbacks
    returns without touching anything: no message is put on the queue, no
    last-known value changes and no connectivity evaluation is scheduled.
    The initialisation thread does not go through the listeners: it returns,
    having called the power adapter, scheduled the connectivity evaluation and
    (when battery reporting is built in) fed one reading to the battery
    adapter, and then it sets the flag. *)
Theorem boot_suppression (cfg : kconfig) (env : platform) (state_of_charge : Z)
  (w : widget) :
  initialized w = false ->
  led_charge_listener_cb env w = w /\
  led_output_listener_cb w = w /\
  led_battery_listener_cb state_of_charge w = w /\
  exists battery_level,
    led_init_thread cfg env w =
    Some (set_initialized true
            ((if CONFIG_ZMK_BATTERY_REPORTING cfg
              then set_battery_level battery_level
              else fun w' => w')
               (indicate_connectivity (indicate_usb_powered env w)))).
Proof.
  intros Hinit.
  unfold led_charge_listener_cb, led_output_listener_cb, led_battery_listener_cb.
  rewrite Hinit. repeat split.
  unfold led_init_thread, indicate_battery.
  destruct (indicate_battery_loop_total env 11 0 0
              (u8 (zmk_battery_state_of_charge env 0))) as [level Hl];
    [lia | cbn; lia |].
  exists level. destruct (CONFIG_ZMK_BATTERY_REPORTING cfg); [|reflexivity].
  rewrite Hl. reflexivity.
Qed.

Lemma boot_suppression_witness :
  initialized boot = false /\
  led_charge_listener_cb (sample_env true true false 25) boot = boot /\
  led_output_listener_cb boot = boot /\
  led_battery_listener_cb 25 boot = boot.
Proof.
  assert (initialized boot = false) as H by reflexivity.
  split; [exact H|].
  pose proof (boot_suppression sample_cfg (sample_env true true false 25) 25 boot H)
    as [H1 [H2 [H3 _]]].
  repeat split; assumption.
Defined.

(** What the initialisation thread leaves behind at the sample platform state
    (USB powered, battery at 25 percent): two messages on the queue, one
    connectivity evaluation scheduled, the flag set. *)
Example led_init_thread_from_boot :
  led_init_thread sample_cfg (sample_env true true false 25) boot =
  Some (mk_widget true COLOR_OFF
          [color_set COLOR_ON; pattern_swap PATTERN_UNKNOWN PATTERN_BATT_30]
          true PATTERN_UNKNOWN true PATTERN_BATT_30 COLOR_OFF 0 []).
Proof. reflexivity. Qed.

(** ** The queue seen from the producers *)

Lemma k_msgq_put_room (m : message_item) (w : widget) :
  (length (led_msgq w) < led_msgq_capacity)%nat ->
  k_msgq_put m w = set_led_msgq (led_msgq w ++ [m]) w.
Proof.
  intros H. unfold k_msgq_put.
  replace (length (led_msgq w) <? led_msgq_capacity)%nat with true
    by (symmetry; apply Nat.ltb_lt; exact H).
  reflexivity.
Qed.

Lemma k_msgq_put_length (m : message_item) (w : widget) :
  (length (led_msgq (k_msgq_put m w)) <= length (led_msgq w) + 1)%nat.
Proof.
  unfold k_msgq_put. destruct (length (led_msgq w) <? led_msgq_capacity)%nat.
  - cbn [led_msgq set_led_msgq]. rewrite length_app. cbn [length]. lia.
  - lia.
Qed.

(** ** C3: the connected indication blinks once *)

Lemma process_retract_clears (b : Z) (e : widget) :
  0 <= b < 8 ->
  Z.testbit (led_current_patterns
               (process_message (pattern_swap b PATTERN_UNKNOWN) e)) b = false.
Proof.
  intros Hb. unfold process_message.
  change (type (pattern_swap b PATTERN_UNKNOWN) =? MESSAGE_COLOR_SET) with false.
  change (type (pattern_swap b PATTERN_UNKNOWN) =? MESSAGE_PATTERN_SWAP) with true.
  change (pattern_off (pattern_swap b PATTERN_UNKNOWN)) with b.
  change (pattern_on (pattern_swap b PATTERN_UNKNOWN) =? PATTERN_UNKNOWN) with true.
  replace (b =? PATTERN_UNKNOWN) with false
    by (symmetry; apply Z.eqb_neq; unfold PATTERN_UNKNOWN; lia).
  cbn [negb led_current_patterns set_led_current_patterns].
  rewrite u8_testbit, Z.land_spec, Z.lnot_spec by lia.
  rewrite testbit_one_shifted by lia. rewrite Z.eqb_refl.
  cbn [negb]. rewrite andb_false_r. apply andb_false_r.
Qed.

(** C3. When the connectivity evaluation resolves to Connected and the
    last-known value is different, the adapter makes exactly two puts on the
    queue, first the swap from the last-known value to Connected and then the
    swap from Connected to none, and its last-known value becomes none.  With
    room for two entries these are the two newest entries of the queue, in
    that order.  After the engine has applied both messages, whatever its
    state was, the Connected bit of the mask is clear. *)
Theorem connect_blink_once (cfg : kconfig) (env : platform) (uninit : Z)
  (w : widget) :
  next_connectivity_pattern cfg env uninit = PATTERN_CONNECTED ->
  current_connectivity_pattern w <> PATTERN_CONNECTED ->
  indicate_connectivity_internal cfg env uninit w =
    set_current_connectivity_pattern PATTERN_UNKNOWN
      (k_msgq_put (pattern_swap PATTERN_CONNECTED PATTERN_UNKNOWN)
         (k_msgq_put (pattern_swap (current_connectivity_pattern w)
                                   PATTERN_CONNECTED) w)) /\
  ((length (led_msgq w) + 2 <= led_msgq_capacity)%nat ->
   led_msgq (indicate_connectivity_internal cfg env uninit w) =
   led_msgq w ++ [pattern_swap (current_connectivity_pattern w) PATTERN_CONNECTED;
                  pattern_swap PATTERN_CONNECTED PATTERN_UNKNOWN]) /\
  current_connectivity_pattern (indicate_connectivity_internal cfg env uninit w)
    = PATTERN_UNKNOWN /\
  (forall e : widget,
     Z.testbit
       (led_current_patterns
          (process_messages
             [pattern_swap (current_connectivity_pattern w) PATTERN_CONNECTED;
              pattern_swap PATTERN_CONNECTED PATTERN_UNKNOWN] e))
       PATTERN_CONNECTED = false).
Proof.
  intros Hnext Hlast.
  assert (indicate_connectivity_internal cfg env uninit w =
    set_current_connectivity_pattern PATTERN_UNKNOWN
      (k_msgq_put (pattern_swap PATTERN_CONNECTED PATTERN_UNKNOWN)
         (k_msgq_put (pattern_swap (current_connectivity_pattern w)
                                   PATTERN_CONNECTED) w))) as Heq.
  { unfold indicate_connectivity_internal. rewrite Hnext.
    replace (current_connectivity_pattern w =? PATTERN_CONNECTED) with false
      by (symmetry; apply Z.eqb_neq; exact Hlast).
    reflexivity. }
  split; [exact Heq|]. rewrite Heq. split; [| split].
  - intros Hroom. cbn [led_msgq set_current_connectivity_pattern].
    rewrite (k_msgq_put_room _ w) by lia.
    rewrite k_msgq_put_room
      by (cbn [led_msgq set_led_msgq]; rewrite length_app; cbn [length]; lia).
    cbn [led_msgq set_led_msgq]. rewrite <- app_assoc. reflexivity.
  - reflexivity.
  - intros e. rewrite !process_messages_cons. cbn [process_messages fold_left].
    apply process_retract_clears. unfold PATTERN_CONNECTED. lia.
Qed.

Lemma connect_blink_once_witness :
  let env := sample_env true true false 80 in
  next_connectivity_pattern sample_cfg env 0 = PATTERN_CONNECTED /\
  current_connectivity_pattern boot <> PATTERN_CONNECTED /\
  led_msgq (indicate_connectivity_internal sample_cfg env 0 boot) =
    [pattern_swap PATTERN_UNKNOWN PATTERN_CONNECTED;
     pattern_swap PATTERN_CONNECTED PATTERN_UNKNOWN].
Proof.
  intros env.
  assert (next_connectivity_pattern sample_cfg env 0 = PATTERN_CONNECTED) as H1
    by reflexivity.
  assert (current_connectivity_pattern boot <> PATTERN_CONNECTED) as H2
    by (vm_compute; discriminate).
  split; [exact H1|]. split; [exact H2|].
  assert (length (led_msgq boot) + 2 <= led_msgq_capacity)%nat as H3
    by (vm_compute; lia).
  exact (proj1 (proj2 (connect_blink_once sample_cfg env 0 boot H1 H2)) H3).
Defined.

(** The engine, idle with base colour off, given the two messages of a
    connect: one blink of the connected pattern, then idle again. *)
Example connect_blink_once_scenario :
  led_process_passes sample_cfg [color_set COLOR_OFF; color_set COLOR_OFF]
    (sample_widget 0 [pattern_swap PATTERN_UNKNOWN PATTERN_CONNECTED;
                      pattern_swap PATTERN_CONNECTED PATTERN_UNKNOWN]) =
  completed (mk_widget true COLOR_OFF [] false PATTERN_UNKNOWN false
               PATTERN_UNKNOWN COLOR_OFF 0
               [led_on; k_sleep 600; led_off; k_sleep 3000]).
Proof. vm_compute. reflexivity. Qed.

(** ** C5: the battery adapter *)

Lemma k_msgq_put_battery (m : message_item) (w : widget) :
  current_battery_pattern (k_msgq_put m w) = current_battery_pattern w.
Proof.
  unfold k_msgq_put.
  destruct (length (led_msgq w) <? led_msgq_capacity)%nat; reflexivity.
Qed.

Lemma k_msgq_put_connectivity (m : message_item) (w : widget) :
  current_connectivity_pattern (k_msgq_put m w) = current_connectivity_pattern w.
Proof.
  unfold k_msgq_put.
  destruct (length (led_msgq w) <? led_msgq_capacity)%nat; reflexivity.
Qed.

Lemma k_msgq_put_usb (m : message_item) (w : widget) :
  usb_current_powered (k_msgq_put m w) = usb_current_powered w.
Proof.
  unfold k_msgq_put.
  destruct (length (led_msgq w) <? led_msgq_capacity)%nat; reflexivity.
Qed.

(** The nested tests of [set_battery_level] compute the tiers of the
    specification. *)
Lemma set_battery_level_tier (battery_level : Z) (w : widget) :
  battery_level <> 0 ->
  set_battery_level battery_level w =
  if current_battery_pattern w =? battery_tier battery_level then w
  else set_current_battery_pattern (battery_tier battery_level)
         (k_msgq_put (pattern_swap (current_battery_pattern w)
                                   (battery_tier battery_level)) w).
Proof.
  intros Hb. unfold set_battery_level, battery_tier.
  replace (battery_level =? 0) with false by (symmetry; apply Z.eqb_neq; exact Hb).
  destruct (Z.leb_spec battery_level 10) as [H10 | H10].
  - destruct (current_battery_pattern w =? PATTERN_BATT_10); reflexivity.
  - replace (10 <? battery_level) with true by (symmetry; apply Z.ltb_lt; lia).
    cbn [andb].
    destruct (Z.leb_spec battery_level 20) as [H20 | H20].
    + destruct (current_battery_pattern w =? PATTERN_BATT_20); reflexivity.
    + replace (20 <? battery_level) with true by (symmetry; apply Z.ltb_lt; lia).
      cbn [andb].
      destruct (battery_level <=? 30);
        match goal with
        | |- context [current_battery_pattern w =? ?t] =>
          destruct (current_battery_pattern w =? t); reflexivity
        end.
Qed.

Lemma set_battery_level_step (battery_level last : Z) (w : widget) :
  battery_level <> 0 ->
  current_battery_pattern w = last ->
  last <> battery_tier battery_level ->
  (length (led_msgq w) < led_msgq_capacity)%nat ->
  set_battery_level battery_level w =
  set_current_battery_pattern (battery_tier battery_level)
    (set_led_msgq (led_msgq w ++ [pattern_swap last (battery_tier battery_level)]) w).
Proof.
  intros Hb Hlast Hne Hroom. rewrite set_battery_level_tier by exact Hb.
  rewrite Hlast.
  replace (last =? battery_tier battery_level) with false
    by (symmetry; apply Z.eqb_neq; exact Hne).
  rewrite k_msgq_put_room by exact Hroom. reflexivity.
Qed.

(** C5. A battery level of 0 makes the battery adapter do nothing: no put and
    the last-known tier unchanged.  Any other level is mapped to tier 1 up to
    10, tier 2 above 10 up to 20, tier 3 above 20 up to 30 and to none above
    30; the swap from the last-known tier to the new one is put on the queue
    exactly when the two differ, and the new tier is then remembered.  From a
    last-known value of none, the levels 35, 25, 15, 5 put exactly the swaps
    none to tier 3, tier 3 to tier 2 and tier 2 to tier 1. *)
Theorem battery_tier_mapping (battery_level : Z) (w : widget) :
  0 <= battery_level < 256 ->
  (battery_level = 0 -> set_battery_level battery_level w = w) /\
  (battery_level <> 0 ->
   (current_battery_pattern w = battery_tier battery_level ->
    set_battery_level battery_level w = w) /\
   (current_battery_pattern w <> battery_tier battery_level ->
    set_battery_level battery_level w =
    set_current_battery_pattern (battery_tier battery_level)
      (k_msgq_put (pattern_swap (current_battery_pattern w)
                                (battery_tier battery_level)) w))) /\
  (current_battery_pattern w = PATTERN_UNKNOWN ->
   (length (led_msgq w) + 3 <= led_msgq_capacity)%nat ->
   led_msgq (set_battery_levels [35; 25; 15; 5] w) =
   led_msgq w ++ [pattern_swap PATTERN_UNKNOWN PATTERN_BATT_30;
                  pattern_swap PATTERN_BATT_30 PATTERN_BATT_20;
                  pattern_swap PATTERN_BATT_20 PATTERN_BATT_10] /\
   current_battery_pattern (set_battery_levels [35; 25; 15; 5] w) =
   PATTERN_BATT_10).
Proof.
  intros Hrange. split; [| split].
  - intros ->. reflexivity.
  - intros Hb. rewrite set_battery_level_tier by exact Hb. split.
    + intros ->. rewrite Z.eqb_refl. reflexivity.
    + intros Hne.
      replace (current_battery_pattern w =? battery_tier battery_level) with false
        by (symmetry; apply Z.eqb_neq; exact Hne).
      reflexivity.
  - intros Hlast Hroom. unfold set_battery_levels. cbn [fold_left].
    assert (set_battery_level 35 w = w) as ->.
    { rewrite set_battery_level_tier by lia. rewrite Hlast. reflexivity. }
    rewrite (set_battery_level_step 25 PATTERN_UNKNOWN w)
      by (try assumption; try discriminate; lia).
    match goal with |- context [set_battery_level 15 ?x] => set (w1 := x) end.
    rewrite (set_battery_level_step 15 PATTERN_BATT_30 w1)
      by (try reflexivity; try discriminate;
          subst w1; cbn [led_msgq set_current_battery_pattern set_led_msgq];
          rewrite length_app; cbn [length]; lia).
    match goal with |- context [set_battery_level 5 ?x] => set (w2 := x) end.
    rewrite (set_battery_level_step 5 PATTERN_BATT_20 w2)
      by (try reflexivity; try discriminate;
          subst w2 w1; cbn [led_msgq set_current_battery_pattern set_led_msgq];
          rewrite !length_app; cbn [length]; lia).
    subst w2 w1. cbn [led_msgq set_current_battery_pattern set_led_msgq
                      current_battery_pattern].
    rewrite <- !app_assoc. split; reflexivity.
Qed.

Lemma battery_tier_mapping_witness :
  0 <= 15 < 256 /\
  set_battery_level 15 (sample_widget 0 []) =
  set_current_battery_pattern PATTERN_BATT_20
    (k_msgq_put (pattern_swap PATTERN_UNKNOWN PATTERN_BATT_20) (sample_widget 0 [])).
Proof.
  assert (0 <= 15 < 256) as H by lia.
  split; [exact H|].
  refine (proj2 (proj1 (proj2 (battery_tier_mapping 15 (sample_widget 0 []) H))
                   _) _); vm_compute; discriminate.
Defined.

(** ** C4: feeding an adapter the same value twice *)

(** The claim as stated, for the connectivity adapter, is false: a second
    evaluation that again resolves to Connected puts two more messages. *)
Lemma idempotent_adapters_connected_fails :
  ~ (forall (cfg : kconfig) (env : platform) (uninit : Z) (w : widget),
       let w1 := indicate_connectivity_internal cfg env uninit w in
       let w2 := indicate_connectivity_internal cfg env uninit w1 in
       led_msgq w2 = led_msgq w1 /\
       (length (led_msgq w2) <= length (led_msgq w) + 1)%nat).
Proof.
  intros H.
  destruct (H sample_cfg (sample_env true true false 80) 0 boot) as [Hq _].
  vm_compute in Hq. discriminate Hq.
Qed.

(** The two evaluations at the sample input: two puts each. *)
Example connected_twice_from_boot :
  let env := sample_env true true false 80 in
  let w1 := indicate_connectivity_internal sample_cfg env 0 boot in
  let w2 := indicate_connectivity_internal sample_cfg env 0 w1 in
  led_msgq w1 = [pattern_swap PATTERN_UNKNOWN PATTERN_CONNECTED;
                 pattern_swap PATTERN_CONNECTED PATTERN_UNKNOWN] /\
  led_msgq w2 = [pattern_swap PATTERN_UNKNOWN PATTERN_CONNECTED;
                 pattern_swap PATTERN_CONNECTED PATTERN_UNKNOWN;
                 pattern_swap PATTERN_UNKNOWN PATTERN_CONNECTED;
                 pattern_swap PATTERN_CONNECTED PATTERN_UNKNOWN].
Proof. split; reflexivity. Qed.

Lemma indicate_usb_powered_cases (env : platform) (w : widget) :
  (usb_current_powered w = zmk_usb_is_powered env /\
   indicate_usb_powered env w = w) \/
  (usb_current_powered w <> zmk_usb_is_powered env /\
   indicate_usb_powered env w =
   set_usb_current_powered (zmk_usb_is_powered env)
     (k_msgq_put (color_set (if zmk_usb_is_powered env then COLOR_ON else COLOR_OFF))
                 w)).
Proof.
  unfold indicate_usb_powered.
  destruct (Bool.eqb_spec (usb_current_powered w) (zmk_usb_is_powered env))
    as [Heq | Hne]; cbn [negb]; [left | right]; split; try assumption; reflexivity.
Qed.

Lemma indicate_connectivity_internal_cases (cfg : kconfig) (env : platform)
  (uninit : Z) (w : widget) :
  next_connectivity_pattern cfg env uninit <> PATTERN_CONNECTED ->
  (current_connectivity_pattern w = next_connectivity_pattern cfg env uninit /\
   indicate_connectivity_internal cfg env uninit w = w) \/
  (current_connectivity_pattern w <> next_connectivity_pattern cfg env uninit /\
   indicate_connectivity_internal cfg env uninit w =
   set_current_connectivity_pattern (next_connectivity_pattern cfg env uninit)
     (k_msgq_put (pattern_swap (current_connectivity_pattern w)
                               (next_connectivity_pattern cfg env uninit)) w)).
Proof.
  intros Hnc. unfold indicate_connectivity_internal.
  replace (next_connectivity_pattern cfg env uninit =? PATTERN_CONNECTED) with false
    by (symmetry; apply Z.eqb_neq; exact Hnc).
  destruct (Z.eqb_spec (current_connectivity_pattern w)
                       (next_connectivity_pattern cfg env uninit))
    as [Heq | Hne]; cbn [negb]; [left | right]; split; try assumption; reflexivity.
Qed.

Lemma set_battery_level_cases (battery_level : Z) (w : widget) :
  set_battery_level battery_level w = w \/
  (battery_level <> 0 /\
   set_battery_level battery_level w =
   set_current_battery_pattern (battery_tier battery_level)
     (k_msgq_put (pattern_swap (current_battery_pattern w)
                               (battery_tier battery_level)) w)).
Proof.
  destruct (Z.eq_dec battery_level 0) as [-> | Hb]; [left; reflexivity|].
  rewrite set_battery_level_tier by exact Hb.
  destruct (current_battery_pattern w =? battery_tier battery_level);
    [left | right; split; [exact Hb|]]; reflexivity.
Qed.

(** C4, amended.  The power adapter, the battery adapter, and the connectivity
    adapter whenever its evaluation resolves to anything but Connected, make at
    most one put when fed the same value twice in succession: the second call
    changes nothing.  When the evaluation resolves to Connected the
    connectivity adapter has forgotten it by the next call (its last-known
    value is none again), so the second call makes the same two puts as the
    first. *)
Theorem idempotent_adapters (cfg : kconfig) (env : platform)
  (uninit battery_level : Z) (w : widget) :
  (indicate_usb_powered env (indicate_usb_powered env w) =
     indicate_usb_powered env w /\
   (indicate_usb_powered env w = w \/
    exists m, indicate_usb_powered env w =
              set_usb_current_powered (zmk_usb_is_powered env) (k_msgq_put m w))) /\
  (set_battery_level battery_level (set_battery_level battery_level w) =
     set_battery_level battery_level w /\
   (set_battery_level battery_level w = w \/
    exists m, set_battery_level battery_level w =
              set_current_battery_pattern (battery_tier battery_level)
                (k_msgq_put m w))) /\
  (next_connectivity_pattern cfg env uninit <> PATTERN_CONNECTED ->
   indicate_connectivity_internal cfg env uninit
     (indicate_connectivity_internal cfg env uninit w) =
     indicate_connectivity_internal cfg env uninit w /\
   (indicate_connectivity_internal cfg env uninit w = w \/
    exists m, indicate_connectivity_internal cfg env uninit w =
              set_current_connectivity_pattern
                (next_connectivity_pattern cfg env uninit) (k_msgq_put m w))) /\
  (next_connectivity_pattern cfg env uninit = PATTERN_CONNECTED ->
   current_connectivity_pattern w <> PATTERN_CONNECTED ->
   indicate_connectivity_internal cfg env uninit
     (indicate_connectivity_internal cfg env uninit w) =
   set_current_connectivity_pattern PATTERN_UNKNOWN
     (k_msgq_put (pattern_swap PATTERN_CONNECTED PATTERN_UNKNOWN)
        (k_msgq_put (pattern_swap PATTERN_UNKNOWN PATTERN_CONNECTED)
           (indicate_connectivity_internal cfg env uninit w)))).
Proof.
  split; [| split; [| split]].
  - destruct (indicate_usb_powered_cases env w) as [[Heq Hw] | [Hne Hw]].
    + rewrite Hw. split; [exact Hw | left; reflexivity].
    + split; [| right; eexists; exact Hw].
      rewrite Hw at 1.
      destruct (indicate_usb_powered_cases env
                  (set_usb_current_powered (zmk_usb_is_powered env)
                     (k_msgq_put (color_set (if zmk_usb_is_powered env
                                             then COLOR_ON else COLOR_OFF)) w)))
        as [[_ Hw2] | [Hne2 _]].
      * rewrite Hw2. symmetry. exact Hw.
      * exfalso. apply Hne2. reflexivity.
  - destruct (set_battery_level_cases battery_level w) as [Hw | [Hb Hw]].
    + rewrite Hw. split; [exact Hw | left; reflexivity].
    + split; [| right; eexists; exact Hw].
      rewrite Hw at 1. rewrite set_battery_level_tier by exact Hb.
      cbn [current_battery_pattern set_current_battery_pattern].
      rewrite Z.eqb_refl. symmetry. exact Hw.
  - intros Hnc.
    destruct (indicate_connectivity_internal_cases cfg env uninit w Hnc)
      as [[Heq Hw] | [Hne Hw]].
    + rewrite Hw. split; [exact Hw | left; reflexivity].
    + split; [| right; eexists; exact Hw].
      rewrite Hw at 1.
      match goal with |- indicate_connectivity_internal _ _ _ ?x = _ =>
        destruct (indicate_connectivity_internal_cases cfg env uninit x Hnc)
          as [[_ Hw2] | [Hne2 _]]
      end.
      * rewrite Hw2. symmetry. exact Hw.
      * exfalso. apply Hne2. reflexivity.
  - intros Hc Hlast.
    unfold indicate_connectivity_internal at 1. rewrite Hc.
    assert (current_connectivity_pattern
              (indicate_connectivity_internal cfg env uninit w) = PATTERN_UNKNOWN)
      as Hcur.
    { unfold indicate_connectivity_internal. rewrite Hc.
      replace (current_connectivity_pattern w =? PATTERN_CONNECTED) with false
        by (symmetry; apply Z.eqb_neq; exact Hlast).
      reflexivity. }
    rewrite Hcur. reflexivity.
Qed.

Lemma idempotent_adapters_witness :
  let env := sample_env true false true 25 in
  next_connectivity_pattern sample_cfg env 0 <> PATTERN_CONNECTED /\
  indicate_connectivity_internal sample_cfg env 0
    (indicate_connectivity_internal sample_cfg env 0 boot) =
  indicate_connectivity_internal sample_cfg env 0 boot.
Proof.
  intros env.
  assert (next_connectivity_pattern sample_cfg env 0 <> PATTERN_CONNECTED) as H
    by (vm_compute; discriminate).
  split; [exact H|].
  exact (proj1 (proj1 (proj2 (proj2 (idempotent_adapters sample_cfg env 0 25 boot)))
                  H)).
Defined.

(** ** C2: which message a pass of the loop applies *)

(** The prologue of the engine thread at program start: the LED is already at
    the base colour, so the driver is not called, and the first pass waits. *)
Example led_process_thread_from_boot :
  led_process_thread_start boot = boot /\
  led_process_iteration sample_cfg (color_set COLOR_OFF)
    (led_process_thread_start boot) = waiting.
Proof. split; reflexivity. Qed.

(** With something on the queue, the pass takes the oldest entry and leaves the
    others in their order. *)
Lemma led_process_receive_head (uninit m : message_item)
  (q : list message_item) (w : widget) :
  led_msgq w = m :: q ->
  led_process_receive uninit w = Some (m, set_led_msgq q w).
Proof.
  intros Hq. unfold led_process_receive, k_msgq_get. rewrite Hq. reflexivity.
Qed.

(** With an empty queue and an empty mask, the pass waits. *)
Lemma led_process_receive_idle (uninit : message_item) (w : widget) :
  led_msgq w = [] -> led_current_patterns w = 0 ->
  led_process_receive uninit w = None.
Proof.
  intros Hq Hp. unfold led_process_receive, k_msgq_get. rewrite Hq, Hp.
  reflexivity.
Qed.

(** With an empty queue and a non-empty mask, the pass goes on with the
    unwritten variable. *)
Lemma led_process_receive_unwritten (uninit : message_item) (w : widget) :
  led_msgq w = [] -> led_current_patterns w <> 0 ->
  led_process_receive uninit w = Some (uninit, w).
Proof.
  intros Hq Hp. unfold led_process_receive, k_msgq_get. rewrite Hq.
  replace (led_current_patterns w =? 0) with false
    by (symmetry; apply Z.eqb_neq; exact Hp).
  reflexivity.
Qed.

(** Applying the same well-formed message a second time changes nothing.  So
    where the storage of [msg] still holds the message of the previous pass,
    the extra application is not visible in the state. *)
Lemma process_message_again (m : message_item) (w : widget) :
  0 <= led_current_patterns w < 256 ->
  known_type m = true -> swap_in_enum m = true ->
  process_message m (process_message m w) = process_message m w.
Proof.
  intros Hp Hk Hs. unfold known_type in Hk. unfold swap_in_enum in Hs.
  destruct (Z.eqb_spec (type m) MESSAGE_COLOR_SET) as [Hc | Hc].
  - unfold process_message. rewrite Hc. reflexivity.
  - cbn [orb] in Hk. apply Z.eqb_eq in Hk. rewrite Hk in Hs.
    cbn [negb orb Z.eqb MESSAGE_PATTERN_SWAP] in Hs.
    apply andb_true_iff in Hs as [Hoff Hon].
    destruct (process_pattern_swap m w Hp Hk Hoff Hon) as [p1 [R1 [B1 S1]]].
    rewrite R1.
    destruct (process_pattern_swap m (set_led_current_patterns p1 w) B1 Hk Hoff Hon)
      as [p2 [R2 [B2 S2]]].
    rewrite R2, set_led_current_patterns_twice. f_equal.
    apply Z.bits_inj'. intros i Hi.
    rewrite S2 by exact Hi. cbn [led_current_patterns set_led_current_patterns].
    rewrite S1 by exact Hi.
    destruct (i =? pattern_on m), (i =? pattern_off m),
      (Z.testbit (led_current_patterns w) i); reflexivity.
Qed.

(** C2. The engine at an input it meets in normal operation: a battery event
    at 25 percent is the only message ever put on the queue.  The first pass of
    the loop takes it from the queue and shows the three-blink pattern.  The
    second pass finds the queue empty, does not wait because the mask is
    non-empty, and applies the content of the unwritten variable [msg]: with a
    tag outside the two message types it reaches the unknown-type branch, and
    with a swap that was never put on the queue it sets the Connected bit. *)
Theorem unqueued_message_applied :
  let w := led_battery_listener_cb 25 (set_initialized true boot) in
  led_msgq w = [pattern_swap PATTERN_UNKNOWN PATTERN_BATT_30] /\
  (exists w1,
     led_process_passes sample_cfg [color_set COLOR_OFF] w = completed w1 /\
     led_msgq w1 = [] /\ led_current_patterns w1 = 1 /\
     led_process_receive (mk_message_item 7 0 0) w1 =
       Some (mk_message_item 7 0 0, w1)) /\
  (exists w2,
     led_process_passes sample_cfg [color_set COLOR_OFF; mk_message_item 7 0 0] w
       = completed w2 /\
     In (warn_unknown_message_type 7) (io_log w2)) /\
  (exists w2,
     led_process_passes sample_cfg
       [color_set COLOR_OFF; pattern_swap PATTERN_UNKNOWN PATTERN_CONNECTED] w
       = completed w2 /\
     led_current_patterns w2 = 17 /\
     Z.testbit (led_current_patterns w2) PATTERN_CONNECTED = true).
Proof.
  intros w. split; [reflexivity|]. split; [| split].
  - eexists. split; [vm_compute; reflexivity|]. repeat split.
  - eexists. split; [vm_compute; reflexivity|].
    cbn [io_log In]. do 12 right. left. reflexivity.
  - eexists. split; [vm_compute; reflexivity|]. split; reflexivity.
Qed.

(** * Further properties of the consumer *)

(** ** What one [set_led] call does *)

Lemma set_led_color_after (c d : Z) (w : widget) :
  led_current_color (set_led c d w) = c.
Proof.
  unfold set_led.
  destruct (Z.eqb_spec (led_current_color w) c) as [Heq | Hne];
    destruct (0 <? d); cbn; auto.
Qed.

Lemma set_led_log (c d : Z) (w : widget) :
  io_log (set_led c d w) =
  io_log w
  ++ (if negb (led_current_color w =? c)
      then [if lit c then led_on else led_off] else [])
  ++ (if 0 <? d then [k_sleep d] else []).
Proof.
  unfold set_led, lit.
  destruct (negb (led_current_color w =? c)), (0 <? d); cbn [io_log emit set_led_current_color];
    rewrite <- ?app_assoc, ?app_nil_r; reflexivity.
Qed.

Lemma set_led_frame (c d : Z) (w : widget) :
  same_adapters w (set_led c d w) /\
  led_msgq (set_led c d w) = led_msgq w /\
  led_default_color (set_led c d w) = led_default_color w /\
  led_current_patterns (set_led c d w) = led_current_patterns w.
Proof.
  unfold set_led, same_adapters.
  destruct (negb (led_current_color w =? c)), (0 <? d); cbn; repeat split.
Qed.

Lemma drive_cons (r : Z * Z) (l : list (Z * Z)) (w : widget) :
  drive (r :: l) w = drive l (set_led (fst r) (snd r) w).
Proof. reflexivity. Qed.

Lemma drive_frame (l : list (Z * Z)) :
  forall w,
    same_adapters w (drive l w) /\
    led_msgq (drive l w) = led_msgq w /\
    led_default_color (drive l w) = led_default_color w /\
    led_current_patterns (drive l w) = led_current_patterns w.
Proof.
  induction l as [|r l IH]; intros w.
  - unfold same_adapters. cbn. repeat split.
  - rewrite drive_cons.
    destruct (IH (set_led (fst r) (snd r) w)) as [[A1 [A2 [A3 [A4 A5]]]] [Q [D P]]].
    destruct (set_led_frame (fst r) (snd r) w) as [[B1 [B2 [B3 [B4 B5]]]] [Q' [D' P']]].
    unfold same_adapters. repeat split; congruence.
Qed.

(** ** The shape of the output part of a pass *)

Lemma PATTERNS_entries (cfg : kconfig) (idx : Z) (p : pattern) :
  nth_error (PATTERNS cfg) (Z.to_nat idx) = Some p ->
  1 <= times p < 256 /\ 0 <= duration_ms p /\ 0 <= sleep_ms p.
Proof.
  intros H.
  assert (In p (PATTERNS cfg)) as Hin by (eapply nth_error_In; exact H).
  pose proof (u16 (CONFIG_LED_WIDGET_BATTERY_BLINK_MS cfg)) as x.
  assert (forall y, 0 <= u16 y) as Hu
    by (intros y; unfold u16; apply Z.mod_pos_bound; lia).
  cbn [PATTERNS In] in Hin.
  destruct Hin as [<- | [<- | [<- | [<- | [<- | []]]]]];
    cbn [times duration_ms sleep_ms]; repeat split; try lia; apply Hu.
Qed.

(** The last statements of a pass, as a sequence of [set_led] requests or as
    the single warning. *)
Lemma led_process_display_cases (cfg : kconfig) (w : widget) :
  0 <= led_current_patterns w < 256 ->
  (led_current_patterns w = 0 /\
   led_process_display cfg w = completed (drive [(led_default_color w, 0)] w)) \/
  (0 < led_current_patterns w < 32 /\
   exists p,
     nth_error (PATTERNS cfg) (Z.to_nat (Z.log2 (led_current_patterns w))) = Some p /\
     led_process_display cfg w =
     completed (drive (render_requests (led_default_color w) p
                         (u16 (CONFIG_LED_WIDGET_INTERVAL_MS cfg))) w)) \/
  (32 <= led_current_patterns w /\
   led_process_display cfg w =
   completed (emit (warn_invalid_pattern_index (Z.log2 (led_current_patterns w))) w)).
Proof.
  intros Hm. unfold led_process_display.
  destruct (Z.eqb_spec (led_current_patterns w) 0) as [H0 | H0].
  - left. split; [exact H0 | reflexivity].
  - right. rewrite highest_priority_pattern_log2 by lia.
    destruct (Z_lt_le_dec (led_current_patterns w) 32) as [Hlt | Hge].
    + left. split; [lia|].
      assert (0 <= Z.log2 (led_current_patterns w) < PATTERNS_len cfg) as Hidx.
      { split; [apply Z.log2_nonneg|]. change (PATTERNS_len cfg) with 5.
        apply Z.log2_lt_pow2; [lia | change (2 ^ 5) with 32; lia]. }
      destruct (display_pattern_valid cfg _ w Hidx) as [p [Hn Hd]].
      exists p. split; [exact Hn|]. rewrite Hd. reflexivity.
    + right. split; [exact Hge|].
      unfold display_pattern.
      replace (PATTERNS_len cfg <=? Z.log2 (led_current_patterns w)) with true.
      * reflexivity.
      * symmetry. apply Z.leb_le. change (PATTERNS_len cfg) with 5.
        apply Z.log2_le_pow2; [lia | change (2 ^ 5) with 32; lia].
Qed.

Lemma process_message_mask_range (m : message_item) (w : widget) :
  0 <= led_current_patterns w < 256 ->
  0 <= led_current_patterns (process_message m w) < 256.
Proof.
  intros H. unfold process_message.
  destruct (type m =? MESSAGE_COLOR_SET); [exact H|].
  destruct (type m =? MESSAGE_PATTERN_SWAP); [| exact H].
  destruct (negb (pattern_on m =? PATTERN_UNKNOWN));
    destruct (negb (pattern_off m =? PATTERN_UNKNOWN));
    cbn [led_current_patterns set_led_current_patterns];
    try apply u8_range; exact H.
Qed.

(** ** Driver calls *)

Lemma driver_calls_app (a b : list event) :
  driver_calls (a ++ b) = driver_calls a ++ driver_calls b.
Proof.
  induction a as [|e a IH]; [reflexivity|].
  destruct e; cbn [app driver_calls]; rewrite IH; reflexivity.
Qed.

Lemma set_led_driver_calls (c d : Z) (w : widget) :
  driver_calls (io_log (set_led c d w)) =
  driver_calls (io_log w)
  ++ (if led_current_color w =? c then [] else [lit c]).
Proof.
  rewrite set_led_log, !driver_calls_app.
  destruct (led_current_color w =? c); cbn [negb];
    destruct (lit c), (0 <? d); cbn [driver_calls app]; reflexivity.
Qed.

(** X1. [set_led] writes to the LED driver only on a change of level: a
    request for a colour other than the one last applied makes exactly one
    driver call, and a request that repeats the colour last applied makes
    none, whatever the two durations are. *)
Theorem set_led_edge_triggered (c d1 d2 : Z) (w : widget) :
  driver_calls (io_log (set_led c d1 w)) =
    driver_calls (io_log w)
    ++ (if led_current_color w =? c then [] else [lit c]) /\
  driver_calls (io_log (set_led c d2 (set_led c d1 w))) =
    driver_calls (io_log (set_led c d1 w)).
Proof.
  split; [apply set_led_driver_calls|].
  rewrite (set_led_driver_calls c d2), set_led_color_after, Z.eqb_refl.
  apply app_nil_r.
Qed.

Lemma is_color_cases (c : Z) : is_color c = true -> c = 0 \/ c = 1.
Proof.
  unfold is_color, COLOR_OFF, COLOR_ON. rewrite orb_true_iff, !Z.eqb_eq. tauto.
Qed.

Lemma inverse_is_color (base : Z) : is_color (inverse base) = true.
Proof. unfold inverse. destruct (base =? COLOR_ON); reflexivity. Qed.

Lemma drive_alternates (reqs : list (Z * Z)) :
  forall w,
    is_color (led_current_color w) = true ->
    forallb (fun r => is_color (fst r)) reqs = true ->
    exists suffix,
      io_log (drive reqs w) = io_log w ++ suffix /\
      alternates (lit (led_current_color w)) (driver_calls suffix) = true /\
      is_color (led_current_color (drive reqs w)) = true.
Proof.
  induction reqs as [|[c d] reqs IH]; intros w Hcur Hall.
  - exists []. cbn. rewrite app_nil_r. repeat split. exact Hcur.
  - cbn [forallb fst] in Hall. apply andb_true_iff in Hall as [Hc Hall].
    rewrite drive_cons. cbn [fst snd].
    destruct (IH (set_led c d w)) as [s2 [Hlog [Halt Hcol]]];
      [rewrite set_led_color_after; exact Hc | exact Hall |].
    rewrite set_led_color_after in Halt.
    rewrite Hlog, set_led_log, <- !app_assoc.
    eexists. split; [reflexivity|]. split; [| exact Hcol].
    rewrite !driver_calls_app.
    assert (driver_calls (if 0 <? d then [k_sleep d] else []) = []) as ->
      by (destruct (0 <? d); reflexivity).
    cbn [app].
    destruct (Z.eqb_spec (led_current_color w) c) as [Heq | Hne]; cbn [negb].
    + cbn [driver_calls app]. rewrite Heq. exact Halt.
    + assert (driver_calls [if lit c then led_on else led_off] = [lit c]) as ->
        by (destruct (lit c); reflexivity).
      cbn [app alternates]. rewrite Halt, andb_true_r.
      apply is_color_cases in Hcur. apply is_color_cases in Hc.
      destruct Hcur as [E1 | E1], Hc as [E2 | E2]; rewrite E1, E2 in *;
        try reflexivity; exfalso; apply Hne; reflexivity.
Qed.

Lemma forallb_intersperse {A : Type} (P : A -> bool) (sep : A) (l : list A) :
  P sep = true -> forallb P l = true -> forallb P (intersperse sep l) = true.
Proof.
  intros Hsep. induction l as [|x l IH]; intros Hl; [reflexivity|].
  cbn [forallb] in Hl. apply andb_true_iff in Hl as [Hx Hl].
  destruct l as [|y l].
  - cbn. rewrite Hx. reflexivity.
  - change (intersperse sep (x :: y :: l)) with (x :: sep :: intersperse sep (y :: l)).
    cbn [forallb]. rewrite Hx, Hsep, (IH Hl). reflexivity.
Qed.

Lemma forallb_repeat {A : Type} (P : A -> bool) (x : A) (n : nat) :
  P x = true -> forallb P (repeat x n) = true.
Proof.
  intros Hx. induction n as [|n IH]; [reflexivity|].
  cbn [repeat forallb]. rewrite Hx, IH. reflexivity.
Qed.

Lemma render_requests_colors (base : Z) (p : pattern) (rest_ms : Z) :
  is_color base = true ->
  forallb (fun r => is_color (fst r)) (render_requests base p rest_ms) = true.
Proof.
  intros Hb. unfold render_requests. rewrite forallb_app.
  rewrite forallb_intersperse.
  - cbn [forallb fst]. rewrite Hb. reflexivity.
  - exact Hb.
  - apply forallb_repeat. apply inverse_is_color.
Qed.

(** X2. While the LED and the base colour hold colours of the enumeration, the
    output part of a pass never asks the driver for the level the LED already
    has: its driver calls strictly alternate between on and off, the first one
    differing from the level before the pass.  The LED colour is again a
    colour of the enumeration afterwards. *)
Theorem driver_calls_alternate (cfg : kconfig) (w w' : widget) :
  0 <= led_current_patterns w < 256 ->
  is_color (led_current_color w) = true ->
  is_color (led_default_color w) = true ->
  led_process_display cfg w = completed w' ->
  exists suffix,
    io_log w' = io_log w ++ suffix /\
    alternates (lit (led_current_color w)) (driver_calls suffix) = true /\
    is_color (led_current_color w') = true.
Proof.
  intros Hm Hcur Hdef Hd.
  destruct (led_process_display_cases cfg w Hm)
    as [[_ H] | [[_ [p [_ H]]] | [_ H]]];
    rewrite H in Hd; injection Hd as <-.
  - apply (drive_alternates [(led_default_color w, 0)] w); [exact Hcur|].
    cbn. rewrite Hdef. reflexivity.
  - apply (drive_alternates
             (render_requests (led_default_color w) p
                (u16 (CONFIG_LED_WIDGET_INTERVAL_MS cfg))) w); [exact Hcur|].
    apply render_requests_colors. exact Hdef.
  - eexists. split; [reflexivity|]. split; [reflexivity | exact Hcur].
Qed.

Lemma driver_calls_alternate_witness :
  let w := sample_widget 5 [] in
  0 <= led_current_patterns w < 256 /\
  exists w' suffix,
    led_process_display sample_cfg w = completed w' /\
    io_log w' = io_log w ++ suffix /\
    alternates (lit (led_current_color w)) (driver_calls suffix) = true.
Proof.
  intros w.
  assert (0 <= led_current_patterns w < 256) as H
    by (vm_compute; split; [discriminate | reflexivity]).
  split; [exact H|].
  assert (exists w', led_process_display sample_cfg w = completed w') as [w' Hw']
    by (eexists; vm_compute; reflexivity).
  destruct (driver_calls_alternate sample_cfg w w' H eq_refl eq_refl Hw')
    as [suffix [H1 [H2 _]]].
  exists w', suffix. repeat split; assumption.
Defined.

(** ** Every pass ends, and how *)

Lemma led_process_receive_frame (uninit msg : message_item) (w w0 : widget) :
  led_process_receive uninit w = Some (msg, w0) ->
  same_adapters w w0 /\ same_engine w w0 /\
  (led_msgq w = msg :: led_msgq w0 \/
   (led_msgq w = [] /\ w0 = w /\ msg = uninit /\ led_current_patterns w <> 0)).
Proof.
  unfold led_process_receive, k_msgq_get, same_adapters, same_engine.
  destruct (led_msgq w) as [|m q] eqn:Hq.
  - destruct (Z.eqb_spec (led_current_patterns w) 0) as [H0 | H0]; [discriminate|].
    intros H. injection H as <- <-. repeat split. right. repeat split; assumption.
  - intros H. injection H as <- <-. cbn. repeat split. left. reflexivity.
Qed.

Lemma process_message_frame (m : message_item) (w : widget) :
  same_adapters w (process_message m w) /\
  led_msgq (process_message m w) = led_msgq w /\
  led_current_color (process_message m w) = led_current_color w.
Proof.
  unfold process_message, same_adapters.
  destruct (type m =? MESSAGE_COLOR_SET); [cbn; repeat split|].
  destruct (type m =? MESSAGE_PATTERN_SWAP); [| cbn; repeat split].
  destruct (negb (pattern_on m =? PATTERN_UNKNOWN));
    destruct (negb (pattern_off m =? PATTERN_UNKNOWN)); cbn; repeat split.
Qed.

Lemma led_process_display_frame (cfg : kconfig) (w w' : widget) :
  0 <= led_current_patterns w < 256 ->
  led_process_display cfg w = completed w' ->
  same_adapters w w' /\
  led_msgq w' = led_msgq w /\
  led_default_color w' = led_default_color w /\
  led_current_patterns w' = led_current_patterns w.
Proof.
  intros Hm Hd.
  destruct (led_process_display_cases cfg w Hm)
    as [[_ H] | [[_ [p [_ H]]] | [_ H]]];
    rewrite H in Hd; injection Hd as <-.
  - apply (drive_frame [(led_default_color w, 0)] w).
  - apply drive_frame.
  - unfold same_adapters. cbn. repeat split.
Qed.

(** X3. A pass of the engine loop always comes to an end: from any state whose
    mask fits its eight bits, and whatever message it reads, the pass either
    waits on the empty queue with an empty mask or reaches the end of the loop
    body, and the mask still fits eight bits.  No loop of the pass depends on
    the message being well formed. *)
Theorem pass_terminates (cfg : kconfig) (uninit : message_item) (w : widget) :
  0 <= led_current_patterns w < 256 ->
  (led_process_iteration cfg uninit w = waiting /\
   led_msgq w = [] /\ led_current_patterns w = 0) \/
  (exists w', led_process_iteration cfg uninit w = completed w' /\
              0 <= led_current_patterns w' < 256).
Proof.
  intros Hm. unfold led_process_iteration.
  destruct (led_process_receive uninit w) as [[msg w0] |] eqn:Hr.
  - right.
    destruct (led_process_receive_frame _ _ _ _ Hr) as [_ [[_ [_ [Hp _]]] _]].
    assert (0 <= led_current_patterns (process_message msg w0) < 256) as Hm1
      by (apply process_message_mask_range; rewrite Hp; exact Hm).
    destruct (led_process_display_cases cfg _ Hm1)
      as [[_ H] | [[_ [p [_ H]]] | [_ H]]]; rewrite H; eexists;
      (split; [reflexivity|]).
    + rewrite (proj2 (proj2 (proj2 (drive_frame [_] _)))). exact Hm1.
    + rewrite (proj2 (proj2 (proj2 (drive_frame _ _)))). exact Hm1.
    + exact Hm1.
  - left. split; [reflexivity|].
    unfold led_process_receive, k_msgq_get in Hr.
    destruct (led_msgq w); [| discriminate].
    destruct (Z.eqb_spec (led_current_patterns w) 0); [| discriminate].
    split; [reflexivity | assumption].
Qed.

Lemma pass_terminates_witness :
  0 <= led_current_patterns (sample_widget 200 []) < 256 /\
  exists w',
    led_process_iteration sample_cfg (mk_message_item 9 77 (-5))
      (sample_widget 200 []) = completed w' /\
    0 <= led_current_patterns w' < 256.
Proof.
  assert (0 <= led_current_patterns (sample_widget 200 []) < 256) as H
    by (vm_compute; split; [discriminate | reflexivity]).
  split; [exact H|].
  destruct (pass_terminates sample_cfg (mk_message_item 9 77 (-5))
              (sample_widget 200 []) H) as [[Hw _] | Hc].
  - vm_compute in Hw. discriminate Hw.
  - exact Hc.
Defined.

Lemma drive_last_color (l : list (Z * Z)) (r : Z * Z) (w : widget) :
  led_current_color (drive (l ++ [r]) w) = fst r.
Proof. rewrite drive_app. cbn [drive fold_left]. apply set_led_color_after. Qed.

(** X4. When a pass reaches the end of the loop body with a mask inside the
    pattern table (below 32), the LED is at the base colour: a blink never
    leaves the LED inverted, and an idle pass puts the LED at the base colour
    at once. *)
Theorem pass_ends_at_base_color (cfg : kconfig) (uninit : message_item)
  (w w' : widget) :
  0 <= led_current_patterns w < 256 ->
  led_process_iteration cfg uninit w = completed w' ->
  led_current_patterns w' < 32 ->
  led_current_color w' = led_default_color w'.
Proof.
  intros Hm Hit Hlt. unfold led_process_iteration in Hit.
  destruct (led_process_receive uninit w) as [[msg w0] |] eqn:Hr; [| discriminate].
  destruct (led_process_receive_frame _ _ _ _ Hr) as [_ [[_ [_ [Hp _]]] _]].
  assert (0 <= led_current_patterns (process_message msg w0) < 256) as Hm1
    by (apply process_message_mask_range; rewrite Hp; exact Hm).
  destruct (led_process_display_frame cfg _ _ Hm1 Hit) as [_ [_ [Hd Hmask]]].
  destruct (led_process_display_cases cfg _ Hm1)
    as [[_ H] | [[_ [p [_ H]]] | [Hge _]]].
  - rewrite H in Hit. injection Hit as <-.
    cbn [drive fold_left fst snd].
    rewrite set_led_color_after, set_led_default_color_same. reflexivity.
  - rewrite H in Hit. injection Hit as <-.
    unfold render_requests.
    rewrite drive_last_color, drive_default_color_same. reflexivity.
  - lia.
Qed.

Lemma pass_ends_at_base_color_witness :
  let w := sample_widget 2 [color_set COLOR_ON] in
  0 <= led_current_patterns w < 256 /\
  exists w',
    led_process_iteration sample_cfg (color_set COLOR_OFF) w = completed w' /\
    led_current_color w' = COLOR_ON /\ led_default_color w' = COLOR_ON.
Proof.
  intros w.
  assert (0 <= led_current_patterns w < 256) as H
    by (vm_compute; split; [discriminate | reflexivity]).
  split; [exact H|].
  assert (exists w', led_process_iteration sample_cfg (color_set COLOR_OFF) w
                     = completed w') as [w' Hw']
    by (eexists; vm_compute; reflexivity).
  exists w'. split; [exact Hw'|].
  assert (led_default_color w' = COLOR_ON) as Hd
    by (vm_compute in Hw'; injection Hw' as <-; reflexivity).
  split; [| exact Hd].
  rewrite <- Hd.
  apply (pass_ends_at_base_color sample_cfg (color_set COLOR_OFF) w w' H Hw').
  vm_compute in Hw'. injection Hw' as <-. vm_compute. reflexivity.
Defined.

Lemma led_process_iteration_frame (cfg : kconfig) (uninit : message_item)
  (w w' : widget) :
  0 <= led_current_patterns w < 256 ->
  led_process_iteration cfg uninit w = completed w' ->
  same_adapters w w' /\
  (led_msgq w = led_msgq w' \/ exists m, led_msgq w = m :: led_msgq w').
Proof.
  intros Hm Hit. unfold led_process_iteration in Hit.
  destruct (led_process_receive uninit w) as [[msg w0] |] eqn:Hr; [| discriminate].
  destruct (led_process_receive_frame _ _ _ _ Hr)
    as [[A1 [A2 [A3 [A4 A5]]]] [[_ [_ [Hp _]]] Hq]].
  assert (0 <= led_current_patterns (process_message msg w0) < 256) as Hm1
    by (apply process_message_mask_range; rewrite Hp; exact Hm).
  destruct (led_process_display_frame cfg _ _ Hm1 Hit)
    as [[B1 [B2 [B3 [B4 B5]]]] [Q _]].
  destruct (process_message_frame msg w0) as [[C1 [C2 [C3 [C4 C5]]]] [Q' _]].
  split.
  - unfold same_adapters. repeat split; congruence.
  - rewrite Q, Q'. destruct Hq as [Hq | [Hq [-> _]]].
    + right. exists msg. exact Hq.
    + left. reflexivity.
Qed.

(** X5. A pass of the engine loop writes none of the producers' variables and
    takes at most the oldest entry from the queue: the rest of the queue is
    left in its order. *)
Theorem pass_leaves_producers_alone (cfg : kconfig) (uninit : message_item)
  (w w' : widget) :
  0 <= led_current_patterns w < 256 ->
  led_process_iteration cfg uninit w = completed w' ->
  same_adapters w w' /\
  (led_msgq w = led_msgq w' \/ exists m, led_msgq w = m :: led_msgq w').
Proof. apply led_process_iteration_frame. Qed.

Lemma pass_leaves_producers_alone_witness :
  let w := sample_widget 0 [pattern_swap PATTERN_UNKNOWN PATTERN_BATT_10;
                            color_set COLOR_ON] in
  0 <= led_current_patterns w < 256 /\
  exists w',
    led_process_iteration sample_cfg (color_set COLOR_OFF) w = completed w' /\
    same_adapters w w'.
Proof.
  intros w.
  assert (0 <= led_current_patterns w < 256) as H
    by (vm_compute; split; [discriminate | reflexivity]).
  split; [exact H|].
  assert (exists w', led_process_iteration sample_cfg (color_set COLOR_OFF) w
                     = completed w') as [w' Hw']
    by (eexists; vm_compute; reflexivity).
  exists w'. split; [exact Hw'|].
  exact (proj1 (pass_leaves_producers_alone sample_cfg (color_set COLOR_OFF)
                  w w' H Hw')).
Defined.

(** ** How long a pattern takes *)

Lemma slept_app (a b : list event) : slept (a ++ b) = slept a + slept b.
Proof.
  induction a as [|e a IH]; [reflexivity|].
  destruct e; cbn [app slept]; rewrite IH; lia.
Qed.

Lemma slept_set_led (c d : Z) (w : widget) :
  slept (io_log (set_led c d w)) = slept (io_log w) + Z.max 0 d.
Proof.
  rewrite set_led_log, !slept_app.
  assert (slept (if negb (led_current_color w =? c)
                 then [if lit c then led_on else led_off] else []) = 0) as ->
    by (destruct (negb (led_current_color w =? c)), (lit c); reflexivity).
  destruct (Z.ltb_spec 0 d); cbn [slept]; lia.
Qed.

Lemma slept_drive (reqs : list (Z * Z)) :
  forall w, slept (io_log (drive reqs w)) = slept (io_log w) + hold_time reqs.
Proof.
  induction reqs as [|r reqs IH]; intros w.
  - cbn. lia.
  - rewrite drive_cons, IH, slept_set_led. cbn [hold_time fold_right].
    fold (hold_time reqs). lia.
Qed.

Lemma hold_time_app (a b : list (Z * Z)) :
  hold_time (a ++ b) = hold_time a + hold_time b.
Proof.
  induction a as [|r a IH]; [reflexivity|].
  cbn [app hold_time fold_right]. fold (hold_time (a ++ b)) (hold_time a).
  rewrite IH. lia.
Qed.

Lemma hold_time_blinks (blink gap : Z * Z) (n : nat) :
  hold_time (intersperse gap (repeat blink (S n))) =
  Z.of_nat (S n) * Z.max 0 (snd blink) + Z.of_nat n * Z.max 0 (snd gap).
Proof.
  induction n as [|n IH].
  - cbn [repeat intersperse hold_time fold_right]. lia.
  - rewrite intersperse_repeat_SS.
    cbn [hold_time fold_right].
    fold (hold_time (intersperse gap (repeat blink (S n)))).
    rewrite IH. lia.
Qed.

(** X6. Displaying the pattern of a valid index keeps the consumer thread
    asleep for exactly the time the table entry prescribes: the on-duration
    once per blink, the gap once between each two blinks, and the rest
    interval once.  The LED state before the call and the base colour have no
    influence on the time. *)
Theorem display_pattern_sleep_time (cfg : kconfig) (pattern_index : Z)
  (w : widget) :
  0 <= pattern_index < PATTERNS_len cfg ->
  exists p w',
    nth_error (PATTERNS cfg) (Z.to_nat pattern_index) = Some p /\
    display_pattern cfg pattern_index w = Some w' /\
    slept (io_log w') =
    slept (io_log w)
    + times p * duration_ms p + (times p - 1) * sleep_ms p
    + u16 (CONFIG_LED_WIDGET_INTERVAL_MS cfg).
Proof.
  intros Hidx.
  destruct (display_pattern_valid cfg pattern_index w Hidx) as [p [Hn Hd]].
  destruct (PATTERNS_entries cfg pattern_index p Hn) as [Ht [Hdur Hgap]].
  exists p. eexists. split; [exact Hn|]. split; [exact Hd|].
  rewrite slept_drive. unfold render_requests. rewrite hold_time_app.
  destruct (Z.to_nat (times p)) as [|n] eqn:Hn'; [lia|].
  rewrite hold_time_blinks. cbn [snd hold_time fold_right].
  assert (0 <= u16 (CONFIG_LED_WIDGET_INTERVAL_MS cfg))
    by (unfold u16; apply Z.mod_pos_bound; lia).
  replace (Z.of_nat (S n)) with (times p) by lia.
  replace (Z.of_nat n) with (times p - 1) by lia.
  rewrite !Z.max_r by lia. lia.
Qed.

Lemma display_pattern_sleep_time_witness :
  0 <= PATTERN_BATT_20 < PATTERNS_len sample_cfg /\
  exists w',
    display_pattern sample_cfg PATTERN_BATT_20 (sample_widget 2 []) = Some w' /\
    slept (io_log w') = 2 * 200 + 1 * 200 + 3000.
Proof.
  assert (0 <= PATTERN_BATT_20 < PATTERNS_len sample_cfg) as H
    by (vm_compute; split; [discriminate | reflexivity]).
  split; [exact H|].
  destruct (display_pattern_sleep_time sample_cfg PATTERN_BATT_20
              (sample_widget 2 []) H) as [p [w' [Hn [Hd Hs]]]].
  exists w'. split; [exact Hd|].
  rewrite Hs. cbn in Hn. injection Hn as <-. reflexivity.
Defined.

(** * Further properties of the producers *)

(** ** The retry loop of [indicate_battery] *)

Lemma indicate_battery_loop_S (env : platform) (fuel : nat) (retry : Z)
  (polls : nat) (battery_level : Z) :
  indicate_battery_loop env (S fuel) retry polls battery_level =
  if (battery_level =? 0) && (retry <? 10)
  then indicate_battery_loop env fuel (retry + 1) (S polls)
         (u8 (zmk_battery_state_of_charge env (S polls)))
  else Some battery_level.
Proof. reflexivity. Qed.

Lemma indicate_battery_loop_first (env : platform) (n : nat) :
  forall (fuel : nat) (retry : Z) (polls : nat),
    (n < fuel)%nat -> 0 <= retry -> retry + Z.of_nat n <= 10 ->
    (forall j, (polls <= j < polls + n)%nat ->
               u8 (zmk_battery_state_of_charge env j) = 0) ->
    u8 (zmk_battery_state_of_charge env (polls + n)) <> 0 ->
    indicate_battery_loop env fuel retry polls
      (u8 (zmk_battery_state_of_charge env polls)) =
    Some (u8 (zmk_battery_state_of_charge env (polls + n))).
Proof.
  induction n as [|n IH]; intros fuel retry polls Hf Hr Hn Hz Hnz;
    (destruct fuel as [|fuel]; [lia|]); rewrite indicate_battery_loop_S.
  - rewrite Nat.add_0_r in *.
    replace (u8 (zmk_battery_state_of_charge env polls) =? 0) with false
      by (symmetry; apply Z.eqb_neq; exact Hnz).
    reflexivity.
  - rewrite (Hz polls) by lia.
    replace (retry <? 10) with true by (symmetry; apply Z.ltb_lt; lia).
    cbn [Z.eqb andb].
    replace (polls + S n)%nat with (S polls + n)%nat in * by lia.
    apply IH; [lia | lia | lia | intros j Hj; apply Hz; lia | exact Hnz].
Qed.

Lemma indicate_battery_loop_all_zero (env : platform) (n : nat) :
  forall (fuel : nat) (retry : Z) (polls : nat),
    (n < fuel)%nat -> 0 <= retry -> retry + Z.of_nat n = 10 ->
    (forall j, (polls <= j <= polls + n)%nat ->
               u8 (zmk_battery_state_of_charge env j) = 0) ->
    indicate_battery_loop env fuel retry polls
      (u8 (zmk_battery_state_of_charge env polls)) = Some 0.
Proof.
  induction n as [|n IH]; intros fuel retry polls Hf Hr Hn Hz;
    (destruct fuel as [|fuel]; [lia|]); rewrite indicate_battery_loop_S;
    rewrite (Hz polls) by lia.
  - replace (retry <? 10) with false by (symmetry; apply Z.ltb_ge; lia).
    reflexivity.
  - replace (retry <? 10) with true by (symmetry; apply Z.ltb_lt; lia).
    cbn [Z.eqb andb].
    apply IH; [lia | lia | lia | intros j Hj; apply Hz; lia].
Qed.

(** X7. [indicate_battery] reads the battery at most eleven times and feeds the
    battery adapter the first reading that is not zero.  When all eleven
    readings are zero it gives up and changes nothing: no message is put and
    the last-known tier stays. *)
Theorem indicate_battery_first_reading (env : platform) (w : widget) :
  (readings_zero env 11 -> indicate_battery env w = Some w) /\
  (forall k, (k <= 10)%nat -> readings_zero env k ->
     u8 (zmk_battery_state_of_charge env k) <> 0 ->
     indicate_battery env w =
     Some (set_battery_level (u8 (zmk_battery_state_of_charge env k)) w)).
Proof.
  unfold indicate_battery, readings_zero. split.
  - intros Hz.
    rewrite (indicate_battery_loop_all_zero env 10) by
      (try lia; intros j Hj; apply Hz; lia).
    reflexivity.
  - intros k Hk Hz Hnz.
    rewrite (indicate_battery_loop_first env k) by
      (try lia; try (intros j Hj; apply Hz; lia); exact Hnz).
    reflexivity.
Qed.

Lemma indicate_battery_first_reading_witness :
  let env := mk_platform false false false false
               (fun k => if (k <? 3)%nat then 0 else 18) in
  (3 <= 10)%nat /\ readings_zero env 3 /\
  indicate_battery env boot =
  Some (set_battery_level 18 boot).
Proof.
  intros env.
  assert (3 <= 10)%nat as H1 by lia.
  assert (readings_zero env 3) as H2.
  { intros k Hk. destruct k as [|[|[|k]]]; [reflexivity .. | lia]. }
  assert (u8 (zmk_battery_state_of_charge env 3) <> 0) as H3
    by (vm_compute; discriminate).
  split; [exact H1|]. split; [exact H2|].
  exact (proj2 (indicate_battery_first_reading env boot) 3%nat H1 H2 H3).
Defined.

(** ** What the producers may touch *)

Lemma appends_same (n : nat) (w w' : widget) :
  same_engine w w' -> led_msgq w' = led_msgq w -> appends_at_most n w w'.
Proof.
  intros He Hq. split; [exact He|]. exists [].
  rewrite Hq, app_nil_r. cbn [length]. repeat split; lia.
Qed.

Lemma same_engine_refl (w : widget) : same_engine w w.
Proof. unfold same_engine. repeat split. Qed.

Lemma appends_put (m : message_item) (w : widget) :
  appends_at_most 1 w (k_msgq_put m w).
Proof.
  unfold k_msgq_put.
  destruct (Nat.ltb_spec (length (led_msgq w)) led_msgq_capacity) as [Hlt | Hge].
  - split; [unfold same_engine; cbn; repeat split|].
    exists [m]. cbn [led_msgq set_led_msgq]. rewrite length_app. cbn [length].
    repeat split; lia.
  - apply appends_same; [apply same_engine_refl | reflexivity].
Qed.

Lemma appends_trans (a b : nat) (w w1 w2 : widget) :
  appends_at_most a w w1 -> appends_at_most b w1 w2 ->
  appends_at_most (a + b) w w2.
Proof.
  intros [[E1 [E2 [E3 E4]]] [l1 [Q1 [L1 C1]]]] [[F1 [F2 [F3 F4]]] [l2 [Q2 [L2 C2]]]].
  split; [unfold same_engine; repeat split; congruence|].
  exists (l1 ++ l2). rewrite Q2, Q1, <- app_assoc, length_app.
  split; [reflexivity|]. split; [lia|].
  rewrite Q2, Q1, <- app_assoc in C2. rewrite Q1 in C1. lia.
Qed.

Lemma appends_weaken (a b : nat) (w w' : widget) :
  (a <= b)%nat -> appends_at_most a w w' -> appends_at_most b w w'.
Proof.
  intros Hab [He [l [Q [L C]]]]. split; [exact He|].
  exists l. repeat split; try assumption; lia.
Qed.

Ltac same_queue :=
  apply appends_same; [unfold same_engine; cbn; repeat split | reflexivity].

Lemma indicate_usb_powered_appends (env : platform) (w : widget) :
  appends_at_most 1 w (indicate_usb_powered env w).
Proof.
  destruct (indicate_usb_powered_cases env w) as [[_ ->] | [_ ->]].
  - same_queue.
  - eapply (appends_trans 1 0); [apply appends_put | same_queue].
Qed.

Lemma set_battery_level_appends (battery_level : Z) (w : widget) :
  appends_at_most 1 w (set_battery_level battery_level w).
Proof.
  destruct (set_battery_level_cases battery_level w) as [-> | [_ ->]].
  - same_queue.
  - eapply (appends_trans 1 0); [apply appends_put | same_queue].
Qed.

Lemma indicate_connectivity_internal_appends (cfg : kconfig) (env : platform)
  (uninit : Z) (w : widget) :
  appends_at_most 2 w (indicate_connectivity_internal cfg env uninit w).
Proof.
  unfold indicate_connectivity_internal.
  destruct (negb (current_connectivity_pattern w
                  =? next_connectivity_pattern cfg env uninit)).
  - destruct (next_connectivity_pattern cfg env uninit =? PATTERN_CONNECTED).
    + eapply (appends_trans 2 0); [| same_queue].
      eapply (appends_trans 1 1); apply appends_put.
    + eapply (appends_trans 1 1); [apply appends_put | same_queue].
  - same_queue.
Qed.

Lemma led_init_thread_unfold (cfg : kconfig) (env : platform) (w w' : widget) :
  led_init_thread cfg env w = Some w' ->
  exists battery_level,
    w' = set_initialized true
           ((if CONFIG_ZMK_BATTERY_REPORTING cfg
             then set_battery_level battery_level
             else fun x => x)
              (indicate_connectivity (indicate_usb_powered env w))).
Proof.
  unfold led_init_thread, indicate_battery.
  destruct (CONFIG_ZMK_BATTERY_REPORTING cfg).
  - destruct (indicate_battery_loop env 11 0 0 _) as [level|]; [| discriminate].
    intros H. injection H as <-. exists level. reflexivity.
  - intros H. injection H as <-. exists 0. reflexivity.
Qed.

(** X8. No entry point of the producers writes a variable of the consumer (LED
    colour, base colour, pattern mask) or calls the LED driver, and none
    removes or reorders what is on the queue: each call appends at most two
    messages behind the entries already there, and a queue within its
    capacity stays within it. *)
Theorem producers_only_append (cfg : kconfig) (env : platform)
  (c : producer_call) (w w' : widget) :
  producer_step cfg env c w = Some w' ->
  appends_at_most 2 w w'.
Proof.
  destruct c as [| | uninit | soc |]; cbn [producer_step]; intros H.
  - injection H as <-. unfold led_charge_listener_cb.
    destruct (initialized w).
    + apply (appends_weaken 1); [lia | apply indicate_usb_powered_appends].
    + same_queue.
  - injection H as <-. unfold led_output_listener_cb.
    destruct (initialized w); same_queue.
  - injection H as <-. unfold indicate_connectivity_cb.
    apply (appends_trans 0 2 w (set_indicate_connectivity_work false w)).
    + same_queue.
    + apply indicate_connectivity_internal_appends.
  - injection H as <-. unfold led_battery_listener_cb.
    destruct (initialized w).
    + apply (appends_weaken 1); [lia | apply set_battery_level_appends].
    + same_queue.
  - destruct (led_init_thread_unfold cfg env w w' H) as [level ->].
    apply (appends_trans 2 0 w
             ((if CONFIG_ZMK_BATTERY_REPORTING cfg
               then set_battery_level level else fun x => x)
                (indicate_connectivity (indicate_usb_powered env w))));
      [| same_queue].
    apply (appends_trans 1 1 w (indicate_connectivity (indicate_usb_powered env w))).
    + apply (appends_trans 1 0 w (indicate_usb_powered env w));
        [apply indicate_usb_powered_appends|].
      same_queue.
    + destruct (CONFIG_ZMK_BATTERY_REPORTING cfg).
      * apply set_battery_level_appends.
      * same_queue.
Qed.

Lemma producers_only_append_witness :
  let env := sample_env true true false 80 in
  let w := sample_widget 3 [color_set COLOR_ON] in
  producer_step sample_cfg env (connectivity_work_runs 0) w =
    Some (indicate_connectivity_cb sample_cfg env 0 w) /\
  appends_at_most 2 w (indicate_connectivity_cb sample_cfg env 0 w).
Proof.
  intros env w.
  assert (producer_step sample_cfg env (connectivity_work_runs 0) w =
          Some (indicate_connectivity_cb sample_cfg env 0 w)) as H by reflexivity.
  split; [exact H|].
  exact (producers_only_append sample_cfg env (connectivity_work_runs 0) w _ H).
Defined.

(** ** What is on the queue *)

Lemma k_msgq_put_adapter_messages (m : message_item) (w : widget) :
  adapter_message m = true ->
  forallb adapter_message (led_msgq w) = true ->
  forallb adapter_message (led_msgq (k_msgq_put m w)) = true.
Proof.
  intros Hm Hq. unfold k_msgq_put.
  destruct (length (led_msgq w) <? led_msgq_capacity)%nat; [| exact Hq].
  cbn [led_msgq set_led_msgq]. rewrite forallb_app, Hq. cbn. rewrite Hm.
  reflexivity.
Qed.

Lemma battery_tier_is_tier (b : Z) : is_battery_tier (battery_tier b) = true.
Proof.
  unfold battery_tier.
  destruct (b <=? 10); [reflexivity|].
  destruct ((10 <? b) && (b <=? 20)); [reflexivity|].
  destruct ((20 <? b) && (b <=? 30)); reflexivity.
Qed.

Lemma is_battery_tier_pattern (x : Z) :
  is_battery_tier x = true -> is_pattern_type x = true.
Proof.
  unfold is_battery_tier, is_pattern_type, PATTERN_UNKNOWN, PATTERN_BATT_10,
    PATTERN_CONNECTED.
  rewrite !andb_true_iff, !Z.leb_le. lia.
Qed.

Lemma is_remembered_link_pattern (x : Z) :
  is_remembered_link x = true -> is_pattern_type x = true.
Proof.
  unfold is_remembered_link. rewrite orb_true_iff, !Z.eqb_eq.
  intros [-> | ->]; reflexivity.
Qed.

Lemma swap_is_adapter_message (off on : Z) :
  is_pattern_type off = true -> is_pattern_type on = true ->
  adapter_message (pattern_swap off on) = true.
Proof.
  intros Hoff Hon. unfold adapter_message, pattern_swap.
  cbn [type pattern_off pattern_on slot0 slot1 msg_color].
  rewrite Hoff, Hon. reflexivity.
Qed.

(** In a configured build the evaluation yields one of three enumerators. *)
Lemma next_connectivity_pattern_configured (cfg : kconfig) (env : platform)
  (uninit : Z) :
  connectivity_configured cfg = true ->
  next_connectivity_pattern cfg env uninit = PATTERN_CONNECTED \/
  next_connectivity_pattern cfg env uninit = PATTERN_ADVERTISING \/
  next_connectivity_pattern cfg env uninit = PATTERN_UNKNOWN.
Proof.
  unfold connectivity_configured, next_connectivity_pattern.
  destruct (negb (CONFIG_ZMK_SPLIT cfg) || CONFIG_ZMK_SPLIT_ROLE_CENTRAL cfg);
    intros ->.
  - destruct (zmk_ble_active_profile_is_connected env); [tauto|].
    destruct (zmk_ble_active_profile_is_open env); tauto.
  - destruct (zmk_split_bt_peripheral_is_connected env); tauto.
Qed.

Lemma indicate_usb_powered_ok (env : platform) (w : widget) :
  producers_ok w -> producers_ok (indicate_usb_powered env w).
Proof.
  intros [Hq [Hb Hc]].
  destruct (indicate_usb_powered_cases env w) as [[_ ->] | [_ ->]];
    [repeat split; assumption|].
  unfold producers_ok.
  cbn [led_msgq current_battery_pattern current_connectivity_pattern
       set_usb_current_powered].
  rewrite k_msgq_put_battery, k_msgq_put_connectivity.
  repeat split; try assumption.
  apply k_msgq_put_adapter_messages; [| exact Hq].
  destruct (zmk_usb_is_powered env); reflexivity.
Qed.

Lemma set_battery_level_ok (battery_level : Z) (w : widget) :
  producers_ok w -> producers_ok (set_battery_level battery_level w).
Proof.
  intros [Hq [Hb Hc]].
  destruct (set_battery_level_cases battery_level w) as [-> | [_ ->]];
    [repeat split; assumption|].
  unfold producers_ok.
  cbn [led_msgq current_battery_pattern current_connectivity_pattern
       set_current_battery_pattern].
  rewrite k_msgq_put_connectivity.
  repeat split; try assumption; [| apply battery_tier_is_tier].
  apply k_msgq_put_adapter_messages; [| exact Hq].
  apply swap_is_adapter_message; apply is_battery_tier_pattern;
    [exact Hb | apply battery_tier_is_tier].
Qed.

Lemma indicate_connectivity_internal_ok (cfg : kconfig) (env : platform)
  (uninit : Z) (w : widget) :
  connectivity_configured cfg = true ->
  producers_ok w ->
  producers_ok (indicate_connectivity_internal cfg env uninit w).
Proof.
  intros Hcfg [Hq [Hb Hc]].
  pose proof (is_remembered_link_pattern _ Hc) as Hlast.
  unfold indicate_connectivity_internal.
  destruct (negb (current_connectivity_pattern w
                  =? next_connectivity_pattern cfg env uninit));
    [| repeat split; assumption].
  destruct (next_connectivity_pattern_configured cfg env uninit Hcfg)
    as [-> | [-> | ->]];
    cbn [Z.eqb PATTERN_CONNECTED PATTERN_ADVERTISING PATTERN_UNKNOWN Pos.eqb];
    unfold producers_ok;
    cbn [led_msgq current_battery_pattern current_connectivity_pattern
         set_current_connectivity_pattern];
    rewrite ?k_msgq_put_battery;
    (split; [| split; [exact Hb | reflexivity]]);
    repeat apply k_msgq_put_adapter_messages; try exact Hq;
    apply swap_is_adapter_message; try exact Hlast; reflexivity.
Qed.

(** X9. In a build whose connectivity branch is configured, the producers'
    side of the state stays well formed from program start on.  Every message
    an entry point of the producers puts on the queue is a colour-set with a
    colour of the enumeration or a pattern swap with two pattern enumerators;
    the battery adapter remembers none or a battery pattern, the connectivity
    adapter none or advertising (never connected).  A pass of the engine loop
    keeps this, and every message it takes from the queue has that form. *)
Theorem queue_holds_adapter_messages (cfg : kconfig) (env : platform) :
  connectivity_configured cfg = true ->
  producers_ok boot /\
  (forall c w w', producers_ok w -> producer_step cfg env c w = Some w' ->
                  producers_ok w') /\
  (forall uninit w w', 0 <= led_current_patterns w < 256 -> producers_ok w ->
                       led_process_iteration cfg uninit w = completed w' ->
                       producers_ok w') /\
  (forall uninit w msg w0, producers_ok w -> led_msgq w <> [] ->
                           led_process_receive uninit w = Some (msg, w0) ->
                           adapter_message msg = true).
Proof.
  intros Hcfg. split; [| split; [| split]].
  - repeat split.
  - intros c w w' Hok H.
    destruct c as [| | uninit | soc |]; cbn [producer_step] in H.
    + injection H as <-. unfold led_charge_listener_cb.
      destruct (initialized w); [apply indicate_usb_powered_ok|]; exact Hok.
    + injection H as <-. unfold led_output_listener_cb.
      destruct (initialized w); exact Hok.
    + injection H as <-. unfold indicate_connectivity_cb.
      apply indicate_connectivity_internal_ok; [exact Hcfg | exact Hok].
    + injection H as <-. unfold led_battery_listener_cb.
      destruct (initialized w); [apply set_battery_level_ok|]; exact Hok.
    + destruct (led_init_thread_unfold cfg env w w' H) as [level ->].
      assert (producers_ok (indicate_connectivity (indicate_usb_powered env w)))
        as Hok1 by (apply (indicate_usb_powered_ok env) in Hok; exact Hok).
      destruct (CONFIG_ZMK_BATTERY_REPORTING cfg);
        [apply (set_battery_level_ok level) in Hok1|]; exact Hok1.
  - intros uninit w w' Hm [Hq [Hb Hc]] Hit.
    destruct (led_process_iteration_frame cfg uninit w w' Hm Hit)
      as [[_ [_ [A3 [_ A5]]]] Hqueue].
    unfold producers_ok. rewrite A3, A5. repeat split; try assumption.
    destruct Hqueue as [<- | [m Hm']]; [exact Hq|].
    rewrite Hm' in Hq. cbn [forallb] in Hq.
    apply andb_true_iff in Hq as [_ Hq]. exact Hq.
  - intros uninit w msg w0 [Hq _] Hne Hr.
    destruct (led_msgq w) as [|m q] eqn:E; [congruence|].
    rewrite (led_process_receive_head uninit m q w E) in Hr.
    injection Hr as <- _. cbn [forallb] in Hq.
    apply andb_true_iff in Hq as [Hm _]. exact Hm.
Qed.

Lemma queue_holds_adapter_messages_witness :
  let env := sample_env true false true 15 in
  connectivity_configured sample_cfg = true /\
  producers_ok boot /\
  forall w', producer_step sample_cfg env init_thread_runs boot = Some w' ->
             producers_ok w'.
Proof.
  intros env.
  assert (connectivity_configured sample_cfg = true) as H by reflexivity.
  split; [exact H|].
  destruct (queue_holds_adapter_messages sample_cfg env H) as [Hboot [Hstep _]].
  split; [exact Hboot|].
  intros w' Hw'. exact (Hstep init_thread_runs boot w' Hboot Hw').
Defined.

(** ** The mask follows what the adapters remember *)

Lemma mask_after_spec (m : message_item) (w : widget) :
  led_current_patterns (process_message m w) =
  mask_after m (led_current_patterns w).
Proof.
  unfold mask_after, process_message.
  destruct (type m =? MESSAGE_COLOR_SET); [reflexivity|].
  destruct (type m =? MESSAGE_PATTERN_SWAP); [| reflexivity].
  destruct (negb (pattern_on m =? PATTERN_UNKNOWN));
    destruct (negb (pattern_off m =? PATTERN_UNKNOWN)); reflexivity.
Qed.

Lemma process_messages_mask (q : list message_item) :
  forall w,
    led_current_patterns (process_messages q w) =
    fold_left (fun p m => mask_after m p) q (led_current_patterns w).
Proof.
  induction q as [|m q IH]; intros w; [reflexivity|].
  rewrite process_messages_cons, IH, mask_after_spec. reflexivity.
Qed.

Lemma pending_mask_fold (w : widget) :
  pending_mask w =
  fold_left (fun p m => mask_after m p) (led_msgq w) (led_current_patterns w).
Proof. apply process_messages_mask. Qed.

Lemma mask_after_range (m : message_item) (p : Z) :
  0 <= p < 256 -> 0 <= mask_after m p < 256.
Proof.
  intros H. unfold mask_after. apply process_message_mask_range. exact H.
Qed.

Lemma fold_mask_after_range (q : list message_item) :
  forall p, 0 <= p < 256 ->
    0 <= fold_left (fun p m => mask_after m p) q p < 256.
Proof.
  induction q as [|m q IH]; intros p H; [exact H|].
  cbn [fold_left]. apply IH. apply mask_after_range. exact H.
Qed.

Lemma mask_after_color_set (c p : Z) : mask_after (color_set c) p = p.
Proof. reflexivity. Qed.

Lemma mask_after_swap_bits (off on p i : Z) :
  0 <= p < 256 ->
  is_pattern_type off = true -> is_pattern_type on = true -> 0 <= i ->
  Z.testbit (mask_after (pattern_swap off on) p) i =
  (i =? on) || (Z.testbit p i && negb (i =? off)).
Proof.
  intros Hp Hoff Hon Hi. unfold mask_after.
  destruct (process_pattern_swap (pattern_swap off on)
              (set_led_current_patterns p boot) Hp eq_refl Hoff Hon)
    as [p' [R [_ S]]].
  rewrite R. cbn [led_current_patterns set_led_current_patterns].
  rewrite S by exact Hi. reflexivity.
Qed.

(** The pending mask of a state that differs from [w] by one more queued
    message and by producers' variables only. *)
Lemma pending_mask_put (m : message_item) (w w' : widget) :
  (length (led_msgq w) < led_msgq_capacity)%nat ->
  led_msgq w' = led_msgq (k_msgq_put m w) ->
  led_current_patterns w' = led_current_patterns w ->
  pending_mask w' = mask_after m (pending_mask w).
Proof.
  intros Hroom Hq Hp.
  rewrite !pending_mask_fold, Hq, Hp, k_msgq_put_room by exact Hroom.
  cbn [led_msgq set_led_msgq]. rewrite fold_left_app. reflexivity.
Qed.

Lemma pending_mask_same (w w' : widget) :
  led_msgq w' = led_msgq w ->
  led_current_patterns w' = led_current_patterns w ->
  pending_mask w' = pending_mask w.
Proof. intros Hq Hp. rewrite !pending_mask_fold, Hq, Hp. reflexivity. Qed.

Lemma pending_mask_range (w : widget) :
  0 <= led_current_patterns w < 256 -> 0 <= pending_mask w < 256.
Proof. intros H. rewrite pending_mask_fold. apply fold_mask_after_range, H. Qed.

Lemma is_battery_tier_range (x : Z) : is_battery_tier x = true -> -1 <= x <= 2.
Proof.
  unfold is_battery_tier, PATTERN_UNKNOWN, PATTERN_BATT_10.
  rewrite andb_true_iff, !Z.leb_le. lia.
Qed.

Lemma is_remembered_link_cases (x : Z) :
  is_remembered_link x = true -> x = -1 \/ x = 3.
Proof.
  unfold is_remembered_link, PATTERN_UNKNOWN, PATTERN_ADVERTISING.
  rewrite orb_true_iff, !Z.eqb_eq. tauto.
Qed.

Ltac decide_bits :=
  unfold PATTERN_UNKNOWN, PATTERN_ADVERTISING, PATTERN_CONNECTED,
    PATTERN_BATT_10, PATTERN_BATT_20, PATTERN_BATT_30 in *;
  repeat match goal with
         | |- context [?a =? ?b] => destruct (Z.eqb_spec a b)
         end;
  cbn [orb andb negb]; try reflexivity; try lia;
  repeat match goal with
         | |- context [Z.testbit ?p ?i] => destruct (Z.testbit p i)
         end;
  try reflexivity; try lia.

Lemma k_msgq_put_patterns (m : message_item) (w : widget) :
  led_current_patterns (k_msgq_put m w) = led_current_patterns w.
Proof.
  unfold k_msgq_put.
  destruct (length (led_msgq w) <? led_msgq_capacity)%nat; reflexivity.
Qed.

Lemma k_msgq_put_length_room (m : message_item) (w : widget) :
  (length (led_msgq w) < led_msgq_capacity)%nat ->
  length (led_msgq (k_msgq_put m w)) = S (length (led_msgq w)).
Proof.
  intros H. rewrite k_msgq_put_room by exact H.
  cbn [led_msgq set_led_msgq]. rewrite length_app. cbn [length]. lia.
Qed.

Lemma mirrors_indicate_usb_powered (env : platform) (w : widget) :
  mirrors w -> (length (led_msgq w) < led_msgq_capacity)%nat ->
  mirrors (indicate_usb_powered env w).
Proof.
  intros [Hm [Hb [Hc Hbits]]] Hroom.
  destruct (indicate_usb_powered_cases env w) as [[_ ->] | [_ ->]];
    [exact (conj Hm (conj Hb (conj Hc Hbits)))|].
  unfold mirrors.
  cbn [led_current_patterns current_battery_pattern current_connectivity_pattern
       set_usb_current_powered].
  rewrite k_msgq_put_patterns, k_msgq_put_battery, k_msgq_put_connectivity.
  split; [exact Hm|]. split; [assumption|]. split; [assumption|].
  intros i Hi.
  rewrite (pending_mask_put (color_set (if zmk_usb_is_powered env
                                        then COLOR_ON else COLOR_OFF)) w)
    by (try exact Hroom; try reflexivity; apply k_msgq_put_patterns).
  rewrite mask_after_color_set. apply Hbits. exact Hi.
Qed.

Lemma mirrors_set_battery_level (battery_level : Z) (w : widget) :
  mirrors w -> (length (led_msgq w) < led_msgq_capacity)%nat ->
  mirrors (set_battery_level battery_level w).
Proof.
  intros [Hm [Hb [Hc Hbits]]] Hroom.
  destruct (set_battery_level_cases battery_level w) as [-> | [_ ->]];
    [exact (conj Hm (conj Hb (conj Hc Hbits)))|].
  pose proof (battery_tier_is_tier battery_level) as Ht.
  unfold mirrors.
  cbn [led_current_patterns current_battery_pattern current_connectivity_pattern
       set_current_battery_pattern].
  rewrite k_msgq_put_patterns, k_msgq_put_connectivity.
  split; [exact Hm|]. split; [assumption|]. split; [assumption|].
  intros i Hi.
  rewrite (pending_mask_put (pattern_swap (current_battery_pattern w)
                                          (battery_tier battery_level)) w)
    by (try exact Hroom; try reflexivity; apply k_msgq_put_patterns).
  rewrite mask_after_swap_bits
    by (try apply pending_mask_range; try apply is_battery_tier_pattern;
        assumption).
  rewrite Hbits by exact Hi.
  apply is_battery_tier_range in Hb, Ht. apply is_remembered_link_cases in Hc.
  decide_bits.
Qed.

Lemma mirrors_indicate_connectivity_internal (cfg : kconfig) (env : platform)
  (uninit : Z) (w : widget) :
  connectivity_configured cfg = true ->
  mirrors w -> (length (led_msgq w) + 2 <= led_msgq_capacity)%nat ->
  mirrors (indicate_connectivity_internal cfg env uninit w).
Proof.
  intros Hcfg [Hm [Hb [Hc Hbits]]] Hroom.
  pose proof (is_remembered_link_pattern _ Hc) as Hlast.
  pose proof (pending_mask_range w Hm) as Hpm.
  unfold indicate_connectivity_internal.
  destruct (negb (current_connectivity_pattern w
                  =? next_connectivity_pattern cfg env uninit));
    [| exact (conj Hm (conj Hb (conj Hc Hbits)))].
  destruct (next_connectivity_pattern_configured cfg env uninit Hcfg)
    as [-> | [-> | ->]];
    cbn [Z.eqb PATTERN_CONNECTED PATTERN_ADVERTISING PATTERN_UNKNOWN Pos.eqb];
    unfold mirrors;
    cbn [led_current_patterns current_battery_pattern
         current_connectivity_pattern set_current_connectivity_pattern];
    rewrite ?k_msgq_put_patterns, ?k_msgq_put_battery;
    (split; [exact Hm|]); (split; [exact Hb|]); (split; [reflexivity|]);
    intros i Hi.
  - set (w1 := k_msgq_put (pattern_swap (current_connectivity_pattern w) 4) w).
    assert (pending_mask w1 =
            mask_after (pattern_swap (current_connectivity_pattern w) 4)
                       (pending_mask w)) as H1
      by (apply pending_mask_put; [lia | reflexivity | apply k_msgq_put_patterns]).
    rewrite (pending_mask_put (pattern_swap 4 (-1)) w1)
      by (try reflexivity; try apply k_msgq_put_patterns;
          subst w1; rewrite k_msgq_put_length_room; lia).
    rewrite mask_after_swap_bits
      by (try reflexivity; try exact Hi; rewrite H1; apply mask_after_range, Hpm).
    rewrite H1, mask_after_swap_bits by (try reflexivity; assumption).
    rewrite Hbits by exact Hi.
    apply is_battery_tier_range in Hb. apply is_remembered_link_cases in Hc.
    decide_bits.
  - rewrite (pending_mask_put (pattern_swap (current_connectivity_pattern w) 3) w)
      by (try reflexivity; try apply k_msgq_put_patterns; lia).
    rewrite mask_after_swap_bits by (try reflexivity; assumption).
    rewrite Hbits by exact Hi.
    apply is_battery_tier_range in Hb. apply is_remembered_link_cases in Hc.
    decide_bits.
  - rewrite (pending_mask_put (pattern_swap (current_connectivity_pattern w) (-1)) w)
      by (try reflexivity; try apply k_msgq_put_patterns; lia).
    rewrite mask_after_swap_bits by (try reflexivity; assumption).
    rewrite Hbits by exact Hi.
    apply is_battery_tier_range in Hb. apply is_remembered_link_cases in Hc.
    decide_bits.
Qed.

Lemma mirrors_same (w w' : widget) :
  led_msgq w' = led_msgq w ->
  led_current_patterns w' = led_current_patterns w ->
  current_battery_pattern w' = current_battery_pattern w ->
  current_connectivity_pattern w' = current_connectivity_pattern w ->
  mirrors w -> mirrors w'.
Proof.
  intros Hq Hp Hb Hc [M1 [M2 [M3 M4]]]. unfold mirrors.
  rewrite Hp, Hb, Hc, (pending_mask_same w w' Hq Hp).
  exact (conj M1 (conj M2 (conj M3 M4))).
Qed.

Lemma mirrors_pass (cfg : kconfig) (uninit : message_item) (w w' : widget) :
  mirrors w -> led_msgq w <> [] ->
  led_process_iteration cfg uninit w = completed w' ->
  mirrors w'.
Proof.
  intros [Hm [Hb [Hc Hbits]]] Hne Hit.
  destruct (led_process_iteration_frame cfg uninit w w' Hm Hit)
    as [[_ [_ [A3 [_ A5]]]] _].
  unfold led_process_iteration in Hit.
  destruct (led_msgq w) as [|m q] eqn:Hq; [congruence|].
  rewrite (led_process_receive_head uninit m q w Hq) in Hit.
  assert (0 <= led_current_patterns (process_message m (set_led_msgq q w)) < 256)
    as Hm1 by (apply process_message_mask_range; exact Hm).
  destruct (led_process_display_frame cfg _ _ Hm1 Hit) as [_ [Q [_ P]]].
  destruct (process_message_frame m (set_led_msgq q w)) as [_ [Q' _]].
  assert (led_current_patterns w' = mask_after m (led_current_patterns w)) as Hp
    by (rewrite P, mask_after_spec; reflexivity).
  assert (led_msgq w' = q) as Hq' by (rewrite Q, Q'; reflexivity).
  unfold mirrors. rewrite A3, A5, Hp.
  split; [apply mask_after_range; exact Hm|].
  split; [exact Hb|]. split; [exact Hc|].
  intros i Hi. rewrite <- (Hbits i Hi).
  rewrite !pending_mask_fold, Hq', Hp, Hq. reflexivity.
Qed.

(** X10. In a configured build, and as long as no put meets a full queue, the
    pattern mask follows the adapters: once the engine has applied what is on
    the queue, bit [i] of the mask is set exactly when [i] is the tier the
    battery adapter remembers or the state the connectivity adapter remembers.
    This holds at program start, is kept by every entry point of the producers
    called with room for two entries, and by every pass of the engine loop
    that finds a message on the queue.  With the queue drained the mask itself
    has exactly those bits: at most one battery bit, and never the connected
    bit. *)
Theorem mask_mirrors_adapters (cfg : kconfig) (env : platform) :
  connectivity_configured cfg = true ->
  mirrors boot /\
  (forall c w w', mirrors w ->
     (length (led_msgq w) + 2 <= led_msgq_capacity)%nat ->
     producer_step cfg env c w = Some w' -> mirrors w') /\
  (forall uninit w w', mirrors w -> led_msgq w <> [] ->
     led_process_iteration cfg uninit w = completed w' -> mirrors w') /\
  (forall w, mirrors w -> led_msgq w = [] ->
     forall i, 0 <= i ->
       Z.testbit (led_current_patterns w) i =
       (i =? current_battery_pattern w) || (i =? current_connectivity_pattern w)).
Proof.
  intros Hcfg. split; [| split; [| split]].
  - unfold mirrors. cbn. repeat split; try discriminate.
    intros i Hi. rewrite Z.testbit_0_l.
    replace (i =? PATTERN_UNKNOWN) with false
      by (symmetry; apply Z.eqb_neq; unfold PATTERN_UNKNOWN; lia).
    reflexivity.
  - intros c w w' Hmir Hroom H.
    destruct c as [| | uninit | soc |]; cbn [producer_step] in H.
    + injection H as <-. unfold led_charge_listener_cb.
      destruct (initialized w); [| exact Hmir].
      apply mirrors_indicate_usb_powered; [exact Hmir | lia].
    + injection H as <-. unfold led_output_listener_cb.
      destruct (initialized w); [| exact Hmir].
      apply (mirrors_same w); try reflexivity. exact Hmir.
    + injection H as <-. unfold indicate_connectivity_cb.
      apply mirrors_indicate_connectivity_internal; [exact Hcfg | | exact Hroom].
      apply (mirrors_same w); try reflexivity. exact Hmir.
    + injection H as <-. unfold led_battery_listener_cb.
      destruct (initialized w); [| exact Hmir].
      apply mirrors_set_battery_level; [exact Hmir | lia].
    + destruct (led_init_thread_unfold cfg env w w' H) as [level ->].
      assert (mirrors (indicate_connectivity (indicate_usb_powered env w))) as H1.
      { apply (mirrors_same (indicate_usb_powered env w)); try reflexivity.
        apply mirrors_indicate_usb_powered; [exact Hmir | lia]. }
      destruct (indicate_usb_powered_appends env w) as [_ [added [Hq [Hl _]]]].
      destruct (CONFIG_ZMK_BATTERY_REPORTING cfg).
      * apply (mirrors_same
                 (set_battery_level level
                    (indicate_connectivity (indicate_usb_powered env w))));
          try reflexivity.
        apply mirrors_set_battery_level; [exact H1|].
        cbn [led_msgq indicate_connectivity set_indicate_connectivity_work].
        rewrite Hq, length_app. lia.
      * apply (mirrors_same (indicate_connectivity (indicate_usb_powered env w)));
          try reflexivity. exact H1.
  - intros uninit w w'. apply mirrors_pass.
  - intros w [_ [_ [_ Hbits]]] Hq i Hi.
    rewrite <- (Hbits i Hi). unfold pending_mask. rewrite Hq. reflexivity.
Qed.

Lemma mask_mirrors_adapters_witness :
  let env := sample_env false true false 15 in
  connectivity_configured sample_cfg = true /\
  mirrors boot /\
  (length (led_msgq boot) + 2 <= led_msgq_capacity)%nat /\
  mirrors (indicate_connectivity_cb sample_cfg env 0 boot).
Proof.
  intros env.
  assert (connectivity_configured sample_cfg = true) as H by reflexivity.
  assert (length (led_msgq boot) + 2 <= led_msgq_capacity)%nat as Hroom
    by (vm_compute; lia).
  destruct (mask_mirrors_adapters sample_cfg env H) as [Hboot [Hstep _]].
  split; [exact H|]. split; [exact Hboot|]. split; [exact Hroom|].
  exact (Hstep (connectivity_work_runs 0) boot _ Hboot Hroom eq_refl).
Defined.

(** ** A split peripheral *)

(** X11. On a split peripheral the connectivity adapter never reports the loss
    of the link: an evaluation with the link down puts nothing on the queue,
    an evaluation with the link up puts the pair of messages that blinks the
    connected pattern once, and in both cases the adapter keeps remembering
    none. *)
Theorem peripheral_blinks_on_link_up_only (cfg : kconfig) (env : platform)
  (uninit : Z) (w : widget) :
  CONFIG_ZMK_SPLIT cfg = true ->
  CONFIG_ZMK_SPLIT_ROLE_CENTRAL cfg = false ->
  CONFIG_ZMK_SPLIT_BLE cfg = true ->
  current_connectivity_pattern w = PATTERN_UNKNOWN ->
  current_connectivity_pattern (indicate_connectivity_internal cfg env uninit w)
    = PATTERN_UNKNOWN /\
  indicate_connectivity_internal cfg env uninit w =
  if zmk_split_bt_peripheral_is_connected env
  then set_current_connectivity_pattern PATTERN_UNKNOWN
         (k_msgq_put (pattern_swap PATTERN_CONNECTED PATTERN_UNKNOWN)
            (k_msgq_put (pattern_swap PATTERN_UNKNOWN PATTERN_CONNECTED) w))
  else w.
Proof.
  intros Hs Hr Hb Hlast.
  assert (indicate_connectivity_internal cfg env uninit w =
          if zmk_split_bt_peripheral_is_connected env
          then set_current_connectivity_pattern PATTERN_UNKNOWN
                 (k_msgq_put (pattern_swap PATTERN_CONNECTED PATTERN_UNKNOWN)
                    (k_msgq_put (pattern_swap PATTERN_UNKNOWN PATTERN_CONNECTED) w))
          else w) as Heq.
  { unfold indicate_connectivity_internal, next_connectivity_pattern.
    rewrite Hs, Hr, Hb, Hlast. cbn [negb orb].
    destruct (zmk_split_bt_peripheral_is_connected env); reflexivity. }
  split; [| exact Heq].
  rewrite Heq. destruct (zmk_split_bt_peripheral_is_connected env);
    [reflexivity | exact Hlast].
Qed.

Lemma peripheral_blinks_on_link_up_only_witness :
  let env := sample_env false false false 50 in
  CONFIG_ZMK_SPLIT peripheral_cfg = true /\
  CONFIG_ZMK_SPLIT_ROLE_CENTRAL peripheral_cfg = false /\
  CONFIG_ZMK_SPLIT_BLE peripheral_cfg = true /\
  current_connectivity_pattern boot = PATTERN_UNKNOWN /\
  indicate_connectivity_internal peripheral_cfg env 0 boot = boot.
Proof.
  intros env.
  repeat (split; [reflexivity|]).
  exact (proj2 (peripheral_blinks_on_link_up_only peripheral_cfg env 0 boot
                  eq_refl eq_refl eq_refl eq_refl)).
Defined.

(** ** Power indication end to end *)

(** X12. With the engine idle (queue empty, no pattern active) a change of the
    USB power state reaches the LED in one pass: the power adapter puts one
    colour-set message, and the pass that takes it makes the base colour and
    the LED on for powered and off for unpowered, without sleeping, and leaves
    the queue empty.  Without a change of the power state nothing is put and
    the engine keeps waiting. *)
Theorem idle_led_follows_usb_power (cfg : kconfig) (env : platform)
  (uninit : message_item) (w : widget) :
  led_msgq w = [] -> led_current_patterns w = 0 ->
  let c := if zmk_usb_is_powered env then COLOR_ON else COLOR_OFF in
  (usb_current_powered w = zmk_usb_is_powered env ->
   led_process_iteration cfg uninit (indicate_usb_powered env w) = waiting) /\
  (usb_current_powered w <> zmk_usb_is_powered env ->
   exists w',
     led_process_iteration cfg uninit (indicate_usb_powered env w) = completed w' /\
     led_current_color w' = c /\ led_default_color w' = c /\
     led_msgq w' = [] /\ led_current_patterns w' = 0 /\
     usb_current_powered w' = zmk_usb_is_powered env /\
     slept (io_log w') = slept (io_log w) /\
     driver_calls (io_log w') =
     driver_calls (io_log w) ++ (if led_current_color w =? c then [] else [lit c])).
Proof.
  intros Hq Hp c. split.
  - intros Heq.
    destruct (indicate_usb_powered_cases env w) as [[_ ->] | [Hne _]];
      [| contradiction].
    unfold led_process_iteration.
    rewrite led_process_receive_idle by assumption. reflexivity.
  - intros Hne.
    destruct (indicate_usb_powered_cases env w) as [[Heq _] | [_ ->]];
      [contradiction|].
    fold c. rewrite k_msgq_put_room by (rewrite Hq; cbn; unfold led_msgq_capacity; lia).
    rewrite Hq. cbn [app].
    unfold led_process_iteration.
    erewrite led_process_receive_head by reflexivity.
    assert (process_message (color_set c)
              (set_led_msgq []
                 (set_usb_current_powered (zmk_usb_is_powered env)
                    (set_led_msgq [color_set c] w))) =
            set_led_default_color c
              (set_led_msgq []
                 (set_usb_current_powered (zmk_usb_is_powered env)
                    (set_led_msgq [color_set c] w)))) as -> by reflexivity.
    unfold led_process_display.
    cbn [led_current_patterns set_led_default_color set_led_msgq
         set_usb_current_powered led_default_color].
    rewrite Hp. cbn [Z.eqb].
    eexists. split; [reflexivity|].
    rewrite set_led_color_after, set_led_default_color_same.
    destruct (set_led_frame c 0
                (set_led_default_color c
                   (set_led_msgq []
                      (set_usb_current_powered (zmk_usb_is_powered env)
                         (set_led_msgq [color_set c] w)))))
      as [[_ [A2 _]] [Q [_ P]]].
    rewrite A2, Q, P, slept_set_led, set_led_driver_calls.
    cbn [led_default_color led_msgq led_current_patterns usb_current_powered
         led_current_color io_log set_led_default_color set_led_msgq
         set_usb_current_powered].
    repeat split; try assumption; lia.
Qed.

Lemma idle_led_follows_usb_power_witness :
  let env := sample_env true false false 50 in
  led_msgq boot = [] /\ led_current_patterns boot = 0 /\
  usb_current_powered boot <> zmk_usb_is_powered env /\
  exists w',
    led_process_iteration sample_cfg (color_set COLOR_OFF)
      (indicate_usb_powered env boot) = completed w' /\
    led_current_color w' = COLOR_ON.
Proof.
  intros env.
  assert (usb_current_powered boot <> zmk_usb_is_powered env) as H
    by (vm_compute; discriminate).
  split; [reflexivity|]. split; [reflexivity|]. split; [exact H|].
  destruct (proj2 (idle_led_follows_usb_power sample_cfg env (color_set COLOR_OFF)
                     boot eq_refl eq_refl) H) as [w' [H1 [H2 _]]].
  exists w'. split; [exact H1 | exact H2].
Defined.

(** ** Which pattern is shown after a change of the mask *)

Lemma highest_priority_pattern_unique (patterns idx : Z) :
  0 <= patterns < 256 -> highest_set_bit patterns idx ->
  highest_priority_pattern patterns = Some idx.
Proof.
  intros Hp [Hbit Habove].
  assert (patterns <> 0) as Hne
    by (intros ->; rewrite Z.testbit_0_l in Hbit; discriminate).
  rewrite highest_priority_pattern_log2 by lia.
  f_equal. apply Z.log2_bits_unique; assumption.
Qed.

(** X13. The pattern the engine shows changes only with the topmost active
    condition.  With pattern [cur] being shown, asserting condition [x] makes
    the engine show the higher of [cur] and [x]; retracting a condition other
    than [cur] leaves [cur] being shown. *)
Theorem shown_pattern_follows_top_condition (w : widget) (cur x : Z) :
  0 < led_current_patterns w < 256 ->
  highest_priority_pattern (led_current_patterns w) = Some cur ->
  0 <= x <= 4 ->
  highest_priority_pattern
    (led_current_patterns (process_message (pattern_swap PATTERN_UNKNOWN x) w))
    = Some (Z.max cur x) /\
  (x <> cur ->
   highest_priority_pattern
     (led_current_patterns (process_message (pattern_swap x PATTERN_UNKNOWN) w))
     = Some cur).
Proof.
  intros Hm Hcur Hx.
  rewrite highest_priority_pattern_log2 in Hcur by exact Hm.
  injection Hcur as Hcur.
  destruct (log2_highest_set_bit (led_current_patterns w) ltac:(lia))
    as [Hbit Habove].
  rewrite Hcur in Hbit, Habove.
  assert (0 <= cur) as Hc0 by (rewrite <- Hcur; apply Z.log2_nonneg).
  assert (is_pattern_type x = true) as Hxe
    by (unfold is_pattern_type, PATTERN_UNKNOWN, PATTERN_CONNECTED;
        apply andb_true_iff; rewrite !Z.leb_le; lia).
  rewrite !mask_after_spec. split.
  - apply highest_priority_pattern_unique; [apply mask_after_range; lia|].
    split.
    + rewrite mask_after_swap_bits by (try reflexivity; try assumption; lia).
      destruct (Z.max_spec cur x) as [[Hlt ->] | [Hge ->]].
      * rewrite Z.eqb_refl. reflexivity.
      * rewrite Hbit. unfold PATTERN_UNKNOWN.
        replace (cur =? -1) with false by (symmetry; apply Z.eqb_neq; lia).
        apply orb_true_r.
    + intros j Hj.
      rewrite mask_after_swap_bits by (try reflexivity; try assumption; lia).
      rewrite Habove by lia.
      replace (j =? x) with false by (symmetry; apply Z.eqb_neq; lia).
      reflexivity.
  - intros Hne.
    apply highest_priority_pattern_unique; [apply mask_after_range; lia|].
    split.
    + rewrite mask_after_swap_bits by (try reflexivity; try assumption; lia).
      rewrite Hbit.
      replace (cur =? x) with false by (symmetry; apply Z.eqb_neq; lia).
      apply orb_true_r.
    + intros j Hj.
      rewrite mask_after_swap_bits by (try reflexivity; try assumption; lia).
      rewrite Habove by lia. unfold PATTERN_UNKNOWN.
      replace (j =? -1) with false by (symmetry; apply Z.eqb_neq; lia).
      reflexivity.
Qed.

Lemma shown_pattern_follows_top_condition_witness :
  let w := sample_widget 5 [] in
  0 < led_current_patterns w < 256 /\
  highest_priority_pattern (led_current_patterns w) = Some 2 /\
  0 <= 4 <= 4 /\
  highest_priority_pattern
    (led_current_patterns
       (process_message (pattern_swap PATTERN_UNKNOWN 4) w)) = Some (Z.max 2 4).
Proof.
  intros w.
  assert (0 < led_current_patterns w < 256) as H1
    by (vm_compute; split; reflexivity).
  assert (highest_priority_pattern (led_current_patterns w) = Some 2) as H2
    by reflexivity.
  assert (0 <= 4 <= 4) as H3 by lia.
  split; [exact H1|]. split; [exact H2|]. split; [exact H3|].
  exact (proj1 (shown_pattern_follows_top_condition w 2 4 H1 H2 H3)).
Defined.

(** ** Applying a message twice *)

(** X14. Applying a message built by an adapter a second time changes nothing:
    the base colour, the mask and every other variable are as after the first
    application. *)
Theorem reapplied_message_changes_nothing (m : message_item) (w : widget) :
  0 <= led_current_patterns w < 256 ->
  adapter_message m = true ->
  process_message m (process_message m w) = process_message m w.
Proof.
  intros Hm Ha. apply process_message_again; [exact Hm | |];
    unfold adapter_message in Ha; unfold known_type, swap_in_enum;
    destruct (type m =? MESSAGE_COLOR_SET) eqn:Ec;
    destruct (type m =? MESSAGE_PATTERN_SWAP) eqn:Es;
    cbn [andb orb negb] in *; try reflexivity; try discriminate.
  - apply Z.eqb_eq in Ec, Es. rewrite Ec in Es. discriminate.
  - destruct (is_pattern_type (pattern_off m)); [exact Ha | discriminate].
Qed.

Lemma reapplied_message_changes_nothing_witness :
  let w := sample_widget 6 [] in
  let m := pattern_swap PATTERN_BATT_20 PATTERN_BATT_10 in
  0 <= led_current_patterns w < 256 /\
  adapter_message m = true /\
  process_message m (process_message m w) = process_message m w.
Proof.
  intros w m.
  assert (0 <= led_current_patterns w < 256) as H1
    by (vm_compute; split; [discriminate | reflexivity]).
  assert (adapter_message m = true) as H2 by reflexivity.
  split; [exact H1|]. split; [exact H2|].
  exact (reapplied_message_changes_nothing m w H1 H2).
Defined.

(** ** A put that meets a full queue *)

Lemma k_msgq_put_full (m : message_item) (w : widget) :
  (led_msgq_capacity <= length (led_msgq w))%nat -> k_msgq_put m w = w.
Proof.
  intros H. unfold k_msgq_put.
  replace (length (led_msgq w) <? led_msgq_capacity)%nat with false
    by (symmetry; apply Nat.ltb_ge; exact H).
  reflexivity.
Qed.

(** X15. The adapters do not look at the result of [k_msgq_put].  When the
    queue is full, a change seen by an adapter is lost: the queue stays as it
    is, yet the adapter records the new value as its last-known one, exactly
    as if the message had been queued (the connectivity adapter records none
    for a connect, as always).  The connectivity adapter is taken in a state
    it can be in, not remembering connected. *)
Theorem full_queue_loses_the_change (cfg : kconfig) (env : platform)
  (uninit battery_level : Z) (w : widget) :
  (led_msgq_capacity <= length (led_msgq w))%nat ->
  current_connectivity_pattern w <> PATTERN_CONNECTED ->
  (led_msgq (indicate_usb_powered env w) = led_msgq w /\
   usb_current_powered (indicate_usb_powered env w) = zmk_usb_is_powered env) /\
  (led_msgq (set_battery_level battery_level w) = led_msgq w /\
   (battery_level <> 0 ->
    current_battery_pattern (set_battery_level battery_level w) =
    battery_tier battery_level)) /\
  (led_msgq (indicate_connectivity_internal cfg env uninit w) = led_msgq w /\
   current_connectivity_pattern (indicate_connectivity_internal cfg env uninit w) =
   if next_connectivity_pattern cfg env uninit =? PATTERN_CONNECTED
   then PATTERN_UNKNOWN
   else next_connectivity_pattern cfg env uninit).
Proof.
  intros Hfull Hlast. split; [| split].
  - destruct (indicate_usb_powered_cases env w) as [[Heq ->] | [_ ->]].
    + split; [reflexivity | exact Heq].
    + rewrite k_msgq_put_full by exact Hfull. split; reflexivity.
  - split.
    + destruct (set_battery_level_cases battery_level w) as [-> | [_ ->]];
        [reflexivity|].
      rewrite k_msgq_put_full by exact Hfull. reflexivity.
    + intros Hb. rewrite set_battery_level_tier by exact Hb.
      destruct (Z.eqb_spec (current_battery_pattern w) (battery_tier battery_level))
        as [Heq | Hne]; [exact Heq | reflexivity].
  - unfold indicate_connectivity_internal.
    destruct (Z.eqb_spec (current_connectivity_pattern w)
                         (next_connectivity_pattern cfg env uninit)) as [Heq | Hne];
      cbn [negb].
    + split; [reflexivity|]. rewrite Heq.
      destruct (Z.eqb_spec (next_connectivity_pattern cfg env uninit)
                           PATTERN_CONNECTED) as [Hc | Hc]; [| reflexivity].
      exfalso. apply Hlast. rewrite Heq. exact Hc.
    + destruct (next_connectivity_pattern cfg env uninit =? PATTERN_CONNECTED);
        rewrite !(k_msgq_put_full _ w) by exact Hfull; split; reflexivity.
Qed.

Lemma full_queue_loses_the_change_witness :
  let w := sample_widget 1 (repeat (color_set COLOR_ON) 16) in
  (led_msgq_capacity <= length (led_msgq w))%nat /\
  current_connectivity_pattern w <> PATTERN_CONNECTED /\
  led_msgq (set_battery_level 5 w) = led_msgq w /\
  current_battery_pattern (set_battery_level 5 w) = PATTERN_BATT_10.
Proof.
  intros w.
  assert (led_msgq_capacity <= length (led_msgq w))%nat as H1
    by (vm_compute; lia).
  assert (current_connectivity_pattern w <> PATTERN_CONNECTED) as H2
    by (vm_compute; discriminate).
  split; [exact H1|]. split; [exact H2|].
  destruct (full_queue_loses_the_change sample_cfg (sample_env false false false 5)
              0 5 w H1 H2) as [_ [[Hq Hb] _]].
  split; [exact Hq|]. apply Hb. discriminate.
Defined.
